(** * The Vertex AI enrichment stage of dataflow.go

    A shallow embedding of the stateful DoFn [GenerateTextFn] (Setup,
    ProcessElement, callVertexPredictAPI, Teardown) and of the two identity
    helpers it calls, followed by the properties of the stage.

    Conventions.
    - Go [string] is [string]; Go [int] is [Z] (the only arithmetic is
      [count + 1] with [count <= 20], far from the 64-bit bound);
      [float64] is the kernel's binary64 [float].
    - [map[string]int] is [gmap string Z]; the nil map a zero-valued struct
      holds before Setup is [None], and storing into it panics.
    - A Go function returning [(T, error)] is a computation in [M T]: the
      trace of what it did to the outside world, and [Ok] or [Err].
    - What the network and the credential store answer is a [World]; the Go
      library functions whose code is not part of the repository
      (strings.TrimSpace, url.QueryEscape, the JSON decoders, ...) are the
      fields of the [GoRuntime] class. *)

From Stdlib Require Import ZArith List Floats Lia.
From stdpp Require Import gmap strings list pretty.

Set Warnings "-inexact-float,-register-all".
Open Scope Z_scope.

(** ** Errors *)

(** A Go [error] value: what [errors.New] and [fmt.Errorf] without [%w]
    build is an [errors_New]; [fmt.Errorf] with [%w] gives a [wrapError] that
    keeps the cause. *)
Inductive error : Type :=
| errors_New (s : string)
| wrapError (msg : string) (err : error).

Definition Error (e : error) : string :=
  match e with
  | errors_New s => s
  | wrapError msg _ => msg
  end.

Definition Unwrap (e : error) : option error :=
  match e with
  | errors_New _ => None
  | wrapError _ err => Some err
  end.

(** [fmt.Errorf(prefix + "%w", err)]. *)
Definition fmt_Errorf_w (prefix : string) (err : error) : error :=
  wrapError (prefix +:+ Error err) err.

Inductive result (A : Type) : Type :=
| Ok (a : A)
| Err (e : error).
Arguments Ok {A} a.
Arguments Err {A} e.

(** [strings.Contains], as a test. *)
Fixpoint Contains (s substr : string) : bool :=
  if String.prefix substr s then true
  else match s with
       | EmptyString => false
       | String _ s' => Contains s' substr
       end.

(** ** Data structures *)

Record Prompt := { Prompt_Prompt : string }.

Record GeminiResult := {
  GeminiResult_Prompt : string;
  GeneratedText : string
}.

Record VertexInstance := { VertexInstance_Prompt : string }.

Record VertexParameters := {
  Temperature : float;
  TopK : Z;
  MaxOutputTokens : Z
}.

Record VertexRequest := {
  Instances : list VertexInstance;
  Parameters : VertexParameters
}.

Record VertexPrediction := { Content : string }.

Record VertexResponse := { Predictions : list VertexPrediction }.

(** The anonymous struct [googleApiError.Error]. *)
Record googleApiError := {
  Error_Code : Z;
  Error_Message : string;
  Error_Status : string
}.

(** The anonymous struct [info] of getADCIdentityEmail. *)
Record tokenInfo := {
  Email : string;
  EmailVerified : string;
  Error_description : string
}.

(** ** JSON documents *)

Inductive json : Type :=
| JNull
| JBool (b : bool)
| JInt (n : Z)
| JFloat (f : float)
| JString (s : string)
| JArray (items : list json)
| JObject (fields : list (string * json)).

(** The value stored under [key] in an object. *)
Definition json_field (key : string) (j : json) : option json :=
  match j with
  | JObject fields => snd <$> List.find (fun kv => bool_decide (fst kv = key)) fields
  | _ => None
  end.

Definition json_keys (j : json) : list string :=
  match j with
  | JObject fields => fst <$> fields
  | _ => []
  end.

(** [json.Marshal] on the request structs, field by field as their [json:]
    tags say.  [omitempty] drops [maxOutputTokens] when it is zero; a float
    that is NaN or infinite is the one value the encoder rejects. *)
Definition marshal_VertexInstance (i : VertexInstance) : json :=
  JObject [("prompt", JString (VertexInstance_Prompt i))].

Definition marshal_VertexParameters (p : VertexParameters) : result json :=
  if (PrimFloat.is_nan (Temperature p) || PrimFloat.is_infinity (Temperature p))%bool
  then Err (errors_New "json: unsupported value")
  else Ok (JObject ([("temperature", JFloat (Temperature p));
                     ("topK", JInt (TopK p))]
                    ++ (if MaxOutputTokens p =? 0 then []
                        else [("maxOutputTokens", JInt (MaxOutputTokens p))]))).

Definition json_Marshal (r : VertexRequest) : result json :=
  match marshal_VertexParameters (Parameters r) with
  | Err e => Err e
  | Ok params =>
      Ok (JObject [("instances", JArray (marshal_VertexInstance <$> Instances r));
                   ("parameters", params)])
  end.

(** ** HTTP *)

Inductive Client : Type :=
| Client_Timeout (d : Z)          (* &http.Client{Timeout: d}, d in ns *)
| Client_Default                  (* http.DefaultClient, behind http.Get *)
| Client_Google (scope : string). (* google.DefaultClient(ctx, scope) *)

Record Request := {
  Method : string;
  URL : string;
  Header : list (string * string);
  Body : option json
}.

(** [resp.StatusCode], and what reading [resp.Body] to the end gives: the
    bytes read and the error that stopped the read, if any. *)
Record Response := {
  StatusCode : Z;
  BodyBytes : string;
  BodyErr : option error
}.

(** [req.Header.Set(key, value)], for a key in canonical form (as
    Content-Type and Metadata-Flavor are). *)
Definition Header_Set (req : Request) (key value : string) : Request :=
  {| Method := Method req;
     URL := URL req;
     Header := List.filter (fun kv => negb (bool_decide (fst kv = key))) (Header req)
               ++ [(key, value)];
     Body := Body req |}.

Definition http_StatusOK : Z := 200.

(** ** The outside world *)

Record Token := { AccessToken : string; Valid : bool }.

Record Credentials := { TokenSource_Token : result Token }.

Record World := {
  http_Do : Client -> Request -> result Response;
  google_FindDefaultCredentials : string -> result Credentials;
  google_DefaultClient : string -> option error
}.

(** Library functions of the Go runtime the stage calls. *)
Class GoRuntime := {
  strings_TrimSpace : string -> string;
  url_QueryEscape : string -> string;
  (* the %.Ns verb of fmt: the first N runes of the string *)
  fmt_precision : nat -> string -> string;
  (* the error of http.NewRequest for a method and a URL, nil when it builds *)
  http_NewRequest_err : string -> string -> option error;
  (* json.NewDecoder(resp.Body).Decode(&info) *)
  json_Decode_tokenInfo : Response -> result tokenInfo;
  (* json.Unmarshal(body, &googleApiError); None when it returns an error *)
  json_Unmarshal_googleApiError : string -> option googleApiError;
  (* json.Unmarshal(body, &vertexResp) *)
  json_Unmarshal_VertexResponse : string -> result VertexResponse
}.

(** ** Observable effects *)

Inductive Severity := Infof | Warnf | Errorf.

Inductive Arg : Type :=
| AStr (s : string)
| AInt (n : Z)
| AErr (e : error).

Record Counter := { Counter_namespace : string; Counter_name : string }.

Inductive Event : Type :=
| EvLog (sev : Severity) (format : string) (args : list Arg) (* beamlog.Xf(ctx, format, args...) *)
| EvHTTP (c : Client) (req : Request)                        (* c.Do(req) *)
| EvFindDefaultCredentials (scope : string)
| EvToken                                                    (* creds.TokenSource.Token() *)
| EvDefaultClient (scope : string)
| EvCounterInc (c : Counter) (n : Z)                         (* c.Inc(ctx, n) *)
| EvEmit (r : GeminiResult).                                 (* emit(r) *)

Definition M (A : Type) : Type := (list Event * result A)%type.

Definition ret {A} (a : A) : M A := ([], Ok a).

Definition fail {A} (e : error) : M A := ([], Err e).

Definition bind {A B} (m : M A) (k : A -> M B) : M B :=
  match m with
  | (t, Ok a) => let '(t', r) := k a in (t ++ t', r)
  | (t, Err e) => (t, Err e)
  end.

(** [x, err := m; if err != nil { return ..., wrap(err) }] *)
Definition orWrap {A} (m : M A) (wrap : error -> error) : M A :=
  match m with
  | (t, Ok a) => (t, Ok a)
  | (t, Err e) => (t, Err (wrap e))
  end.

Definition event (ev : Event) : M unit := ([ev], Ok tt).

Definition lift {A} (r : result A) : M A := ([], r).

Notation "'do' x <- m ; k" := (bind m (fun x => k))
  (at level 10, x name, m at level 100, k at level 200).

(** The log lines, the records emitted, and the counter increments of a
    trace. *)
Definition logs (t : list Event) : list (Severity * string * list Arg) :=
  omap (fun ev => match ev with EvLog s f a => Some (s, f, a) | _ => None end) t.

Definition emitted (t : list Event) : list GeminiResult :=
  omap (fun ev => match ev with EvEmit r => Some r | _ => None end) t.

Definition counter_incs (t : list Event) : list (Counter * Z) :=
  omap (fun ev => match ev with EvCounterInc c n => Some (c, n) | _ => None end) t.

Definition requests (t : list Event) : list (Client * Request) :=
  omap (fun ev => match ev with EvHTTP c r => Some (c, r) | _ => None end) t.

(** Whether the trace shows the prediction client at work: its credential
    lookup or its request. *)
Definition is_predict_event (ev : Event) : bool :=
  match ev with
  | EvDefaultClient _ => true
  | EvHTTP (Client_Google _) _ => true
  | _ => false
  end.

(** ** Constants *)

Definition metadataHost : string := "http://metadata.google.internal".

(** [2 * time.Second], in nanoseconds. *)
Definition metadataTimeout : Z := 2 * 1000000000.

(** Cap for redundant errors per worker. *)
Definition maxRedundantErrors : Z := 20.

Definition cloud_platform_scope : string :=
  "https://www.googleapis.com/auth/cloud-platform".

Definition userinfo_email_scope : string :=
  "https://www.googleapis.com/auth/userinfo.email".

(** The format strings of the stage's four log lines. *)
Definition skip_format : string :=
  "GenerateTextFn: Skipping processing for prompt '%.50s...' due to worker identity error: %v".

Definition predict_error_format : string :=
  "GenerateTextFn: Error calling Vertex AI predict (identity: '%s', prompt: '%.50s...') (Count: %d): %v".

Definition error_cap_format : string :=
  "GenerateTextFn: Reached error cap (%d) for identity '%s' and Vertex AI error starting with: %.100s...".

Definition teardown_format : string :=
  "GenerateTextFn Teardown complete for worker (Identity used: %s).".

(** ** The worker state *)

(** The struct [GenerateTextFn].  The mutex [mu] has no field here: it is
    taken and released inside one branch of ProcessElement, and calls are
    run one after the other. *)
Record GenerateTextFn := {
  ProjectID : string;
  Region : string;
  ModelName : string;
  errorCounts : option (gmap string Z);
  ErrorCounter : Counter;
  workerIdentity : string;
  identityErr : option error
}.

(** [&GenerateTextFn{ProjectID: .., Region: .., ModelName: ..}] as [run]
    builds it: every other field has its zero value. *)
Definition NewGenerateTextFn (projectID region model : string) : GenerateTextFn :=
  {| ProjectID := projectID;
     Region := region;
     ModelName := model;
     errorCounts := None;
     ErrorCounter := {| Counter_namespace := ""; Counter_name := "" |};
     workerIdentity := "";
     identityErr := None |}.

Definition set_errorCounts (fn : GenerateTextFn) (m : option (gmap string Z)) : GenerateTextFn :=
  {| ProjectID := ProjectID fn;
     Region := Region fn;
     ModelName := ModelName fn;
     errorCounts := m;
     ErrorCounter := ErrorCounter fn;
     workerIdentity := workerIdentity fn;
     identityErr := identityErr fn |}.

Definition set_ErrorCounter (fn : GenerateTextFn) (c : Counter) : GenerateTextFn :=
  {| ProjectID := ProjectID fn;
     Region := Region fn;
     ModelName := ModelName fn;
     errorCounts := errorCounts fn;
     ErrorCounter := c;
     workerIdentity := workerIdentity fn;
     identityErr := identityErr fn |}.

Definition set_workerIdentity (fn : GenerateTextFn) (email : string) : GenerateTextFn :=
  {| ProjectID := ProjectID fn;
     Region := Region fn;
     ModelName := ModelName fn;
     errorCounts := errorCounts fn;
     ErrorCounter := ErrorCounter fn;
     workerIdentity := email;
     identityErr := identityErr fn |}.

Definition set_identityErr (fn : GenerateTextFn) (e : option error) : GenerateTextFn :=
  {| ProjectID := ProjectID fn;
     Region := Region fn;
     ModelName := ModelName fn;
     errorCounts := errorCounts fn;
     ErrorCounter := ErrorCounter fn;
     workerIdentity := workerIdentity fn;
     identityErr := e |}.

(** [fn.errorCounts[key]]: zero for a missing key, and for the nil map. *)
Definition count_of (fn : GenerateTextFn) (key : string) : Z :=
  match errorCounts fn with
  | Some m => default 0 (m !! key)
  | None => 0
  end.

(** [fn.errorCounts[key] = v]: a store into the nil map panics. *)
Definition store_count (fn : GenerateTextFn) (key : string) (v : Z) : option GenerateTextFn :=
  match errorCounts fn with
  | Some m => Some (set_errorCounts fn (Some (<[key := v]> m)))
  | None => None
  end.

Section Stage.
Context `{GoRuntime}.
Variable W : World.

(** ** Library calls with their effects *)

Definition http_NewRequest (method url : string) (body : option json) : M Request :=
  match http_NewRequest_err method url with
  | Some e => fail e
  | None => ret {| Method := method; URL := url; Header := []; Body := body |}
  end.

Definition client_Do (c : Client) (req : Request) : M Response :=
  do _ <- event (EvHTTP c req) ; lift (http_Do W c req).

(** [http.Get(url)] is [DefaultClient.Do] on a fresh GET request. *)
Definition http_Get (url : string) : M Response :=
  do req <- http_NewRequest "GET" url None ;
  client_Do Client_Default req.

Definition io_ReadAll (resp : Response) : M string :=
  match BodyErr resp with
  | Some e => fail e
  | None => ret (BodyBytes resp)
  end.

Definition FindDefaultCredentials (scope : string) : M Credentials :=
  do _ <- event (EvFindDefaultCredentials scope) ; lift (google_FindDefaultCredentials W scope).

Definition TokenSource_Token_call (creds : Credentials) : M Token :=
  do _ <- event EvToken ; lift (TokenSource_Token creds).

Definition DefaultClient (scope : string) : M Client :=
  do _ <- event (EvDefaultClient scope) ;
  match google_DefaultClient W scope with
  | Some e => fail e
  | None => ret (Client_Google scope)
  end.

Definition beamlog (sev : Severity) (format : string) (args : list Arg) : M unit :=
  event (EvLog sev format args).

(** ** Identity helpers *)

Definition getMetadataServiceAccountEmail : M string :=
  let client := Client_Timeout metadataTimeout in
  let url := metadataHost +:+ "/computeMetadata/v1/instance/service-accounts/default/email" in
  do req <- orWrap (http_NewRequest "GET" url None)
                (fmt_Errorf_w "failed to create metadata request: ") ;
  let req := Header_Set req "Metadata-Flavor" "Google" in
  do resp <- orWrap (client_Do client req)
                 (fmt_Errorf_w "failed to query metadata server (likely not running on GCP): ") ;
  if negb (StatusCode resp =? http_StatusOK) then
    fail (errors_New ("metadata server request failed with status "
                       +:+ pretty (StatusCode resp) +:+ ": " +:+ BodyBytes resp))
  else
    do bodyBytes <- orWrap (io_ReadAll resp)
                        (fmt_Errorf_w "failed to read metadata response body: ") ;
    ret (strings_TrimSpace bodyBytes).

Definition getADCIdentityEmail : M string :=
  do creds <- orWrap (FindDefaultCredentials userinfo_email_scope)
                  (fmt_Errorf_w "failed to find default credentials: ") ;
  do token <- orWrap (TokenSource_Token_call creds)
                  (fmt_Errorf_w "failed to get token from token source: ") ;
  if negb (Valid token) then
    fail (errors_New "retrieved token is invalid or expired")
  else
    let tokenInfoURL := "https://www.googleapis.com/oauth2/v3/tokeninfo" in
    let reqUrl := tokenInfoURL +:+ "?access_token=" +:+ url_QueryEscape (AccessToken token) in
    do resp <- orWrap (http_Get reqUrl)
                   (fmt_Errorf_w "failed to query tokeninfo endpoint: ") ;
    if negb (StatusCode resp =? http_StatusOK) then
      fail (errors_New ("tokeninfo request failed with status "
                         +:+ pretty (StatusCode resp) +:+ ": " +:+ BodyBytes resp))
    else
      do info <- orWrap (lift (json_Decode_tokenInfo resp))
                     (fmt_Errorf_w "failed to decode tokeninfo response: ") ;
      if bool_decide (Email info = "") then
        if negb (bool_decide (Error_description info = "")) then
          fail (errors_New ("tokeninfo returned an error: " +:+ Error_description info))
        else
          fail (errors_New "tokeninfo response did not contain an email address")
      else ret (Email info).

(** ** The prediction call *)

Definition vertexPredictURL (fn : GenerateTextFn) : string :=
  "https://" +:+ Region fn +:+ "-aiplatform.googleapis.com/v1/projects/" +:+ ProjectID fn
  +:+ "/locations/" +:+ Region fn +:+ "/publishers/google/models/" +:+ ModelName fn
  +:+ ":predict".

Definition reqBody (prompt : string) : VertexRequest :=
  {| Instances := [ {| VertexInstance_Prompt := prompt |} ];
     Parameters := {| Temperature := 0.8%float;
                      TopK := 3;
                      MaxOutputTokens := 0 |} |}.

Definition callVertexPredictAPI (fn : GenerateTextFn) (prompt : string) : M string :=
  do client <- orWrap (DefaultClient cloud_platform_scope)
                   (fmt_Errorf_w "failed to create google default client (ADC issue?): ") ;
  do reqBytes <- orWrap (lift (json_Marshal (reqBody prompt)))
                     (fmt_Errorf_w "failed to marshal vertex request body: ") ;
  do req <- orWrap (http_NewRequest "POST" (vertexPredictURL fn) (Some reqBytes))
                (fmt_Errorf_w "failed to create http request for vertex ai: ") ;
  let req := Header_Set req "Content-Type" "application/json" in
  do resp <- orWrap (client_Do client req)
                 (fmt_Errorf_w "failed to send request to vertex ai predict api: ") ;
  do respBodyBytes <- orWrap (io_ReadAll resp)
                          (fmt_Errorf_w "failed to read vertex response body: ") ;
  if negb (StatusCode resp =? http_StatusOK) then
    let raw := errors_New ("vertex ai predict api request failed with status "
                            +:+ pretty (StatusCode resp) +:+ ": " +:+ respBodyBytes) in
    match json_Unmarshal_googleApiError respBodyBytes with
    | Some e =>
        if negb (bool_decide (Error_Message e = "")) then
          fail (errors_New ("vertex ai predict api request failed with status "
                             +:+ pretty (StatusCode resp) +:+ " (" +:+ Error_Status e
                             +:+ "): " +:+ Error_Message e))
        else fail raw
    | None => fail raw
    end
  else
    do vertexResp <- orWrap (lift (json_Unmarshal_VertexResponse respBodyBytes))
                         (fun err => wrapError ("failed to unmarshal vertex response (body: "
                                                +:+ fmt_precision 100 respBodyBytes
                                                +:+ "...): " +:+ Error err) err) ;
    match Predictions vertexResp with
    | [] =>
        do _ <- beamlog Warnf "Received empty predictions list from Vertex AI for prompt: %.50s..."
                [AStr prompt] ;
        ret "No prediction content from Vertex AI"
    | first :: _ =>
        if bool_decide (Content first = "") then
          do _ <- beamlog Warnf "Received empty content in first prediction from Vertex AI for prompt: %.50s..."
                  [AStr prompt] ;
          ret "Empty prediction content from Vertex AI"
        else ret (Content first)
    end.

(** ** The DoFn lifecycle *)

Definition Setup (fn : GenerateTextFn) : list Event * GenerateTextFn :=
  let fn := set_errorCounts fn (Some ∅) in
  let fn := set_ErrorCounter fn {| Counter_namespace := "vertexai";
                                   Counter_name := "predict_errors_total" |} in
  (* try metadata server first, fallback to ADC tokeninfo *)
  let '(t1, r1) := getMetadataServiceAccountEmail in
  let '(t2, r2) :=
    match r1 with
    | Err err =>
        let '(t, r) := getADCIdentityEmail in
        (EvLog Warnf "GenerateTextFn: Failed to get identity from metadata server (%v), trying ADC tokeninfo fallback..."
               [AErr err] :: t, r)
    | Ok email => ([], Ok email)
    end in
  match r2 with
  | Err err =>
      let ierr := fmt_Errorf_w "failed to determine worker identity: " err in
      let fn := set_identityErr fn (Some ierr) in
      (t1 ++ t2 ++ [EvLog Errorf "GenerateTextFn: %v" [AErr ierr]], fn)
  | Ok email =>
      let fn := set_workerIdentity fn email in
      (t1 ++ t2 ++ [EvLog Infof "GenerateTextFn: Worker setup complete. Project: %s, Region: %s, Model: %s, Identity: %s"
                          [AStr (ProjectID fn); AStr (Region fn); AStr (ModelName fn);
                           AStr (workerIdentity fn)]],
       fn)
  end.

(** The second component is the worker afterwards, or [None] when the call
    panicked (a store into the nil map of a worker that was never set up). *)
Definition ProcessElement (fn : GenerateTextFn) (p : Prompt)
  : list Event * option GenerateTextFn :=
  match identityErr fn with
  | Some ierr =>
      ([EvLog Errorf skip_format [AStr (Prompt_Prompt p); AErr ierr]],
       Some fn)
  | None =>
      let '(t, r) := callVertexPredictAPI fn (Prompt_Prompt p) in
      match r with
      | Err err =>
          let inc := EvCounterInc (ErrorCounter fn) 1 in
          let errorString := Error err in
          let count := count_of fn errorString in
          if count <? maxRedundantErrors then
            (t ++ [inc;
                   EvLog Errorf predict_error_format
                         [AStr (workerIdentity fn); AStr (Prompt_Prompt p);
                          AInt (count + 1); AErr err]],
             store_count fn errorString (count + 1))
          else if count =? maxRedundantErrors then
            (t ++ [inc;
                   EvLog Warnf error_cap_format
                         [AInt maxRedundantErrors; AStr (workerIdentity fn);
                          AStr errorString]],
             store_count fn errorString (count + 1))
          else (t ++ [inc], Some fn)
      | Ok result =>
          (t ++ [EvEmit {| GeminiResult_Prompt := Prompt_Prompt p;
                           GeneratedText := result |}],
           Some fn)
      end
  end.

Definition Teardown (fn : GenerateTextFn) : list Event :=
  [EvLog Infof teardown_format [AStr (workerIdentity fn)]].

End Stage.

(** ** A worker's slice of the input *)

(** One delivery: the record, and the world as it is while the record is
    processed. *)
Definition Call : Type := (World * Prompt)%type.

Section Runs.
Context `{GoRuntime}.

(** ProcessElement on each record in turn: the trace of every call, and the
    worker at the end ([None] if a call panicked, which ends the run). *)
Fixpoint run (fn : GenerateTextFn) (calls : list Call)
  : list (list Event) * option GenerateTextFn :=
  match calls with
  | [] => ([], Some fn)
  | c :: rest =>
      match ProcessElement (fst c) fn (snd c) with
      | (t, Some fn') => let '(ts, r) := run fn' rest in (t :: ts, r)
      | (t, None) => ([t], None)
      end
  end.

(** The message under which a call is counted in [errorCounts]: that of the
    prediction error, when the worker has an identity and the call fails. *)
Definition failure_message (fn : GenerateTextFn) (c : Call) : option string :=
  match identityErr fn with
  | Some _ => None
  | None =>
      match callVertexPredictAPI (fst c) fn (Prompt_Prompt (snd c)) with
      | (_, Err err) => Some (Error err)
      | (_, Ok _) => None
      end
  end.

Definition fails_with (fn : GenerateTextFn) (m : string) (c : Call) : bool :=
  bool_decide (failure_message fn c = Some m).

(** The traces of the calls that fail with message [m], picked out of a run. *)
Fixpoint traces_of_message (fn : GenerateTextFn) (m : string)
    (calls : list Call) (ts : list (list Event)) : list (list Event) :=
  match calls, ts with
  | c :: calls', t :: ts' =>
      if fails_with fn m c then t :: traces_of_message fn m calls' ts'
      else traces_of_message fn m calls' ts'
  | _, _ => []
  end.

End Runs.

(** ** Notions the properties are stated with *)

(** The document [json.Marshal] writes for the request of a prompt. *)
Definition request_document (prompt : string) : json :=
  JObject [("instances", JArray [JObject [("prompt", JString prompt)]]);
           ("parameters", JObject [("temperature", JFloat 0.8%float);
                                   ("topK", JInt 3)])].

(** The request callVertexPredictAPI hands to its client. *)
Definition predict_request (fn : GenerateTextFn) (prompt : string) : Request :=
  {| Method := "POST";
     URL := vertexPredictURL fn;
     Header := [("Content-Type", "application/json")];
     Body := Some (request_document prompt) |}.

(** The stored count after one more failure with the message. *)
Definition next_count (c : Z) : Z :=
  if c <=? maxRedundantErrors then c + 1 else c.

(** What a failed call adds to the trace after the prediction's own events,
    given the count stored for its message. *)
Definition failure_events (fn : GenerateTextFn) (p : Prompt) (err : error) (c : Z)
  : list Event :=
  EvCounterInc (ErrorCounter fn) 1 ::
  (if c <? maxRedundantErrors then
     [EvLog Errorf predict_error_format
            [AStr (workerIdentity fn); AStr (Prompt_Prompt p); AInt (c + 1); AErr err]]
   else if c =? maxRedundantErrors then
     [EvLog Warnf error_cap_format
            [AInt maxRedundantErrors; AStr (workerIdentity fn); AStr (Error err)]]
   else []).

(** The map after a failure with message [m]. *)
Definition record_failure (mp : gmap string Z) (m : string) : gmap string Z :=
  let c := default 0 (mp !! m) in
  if c <=? maxRedundantErrors then <[m := c + 1]> mp else mp.

(** The request getMetadataServiceAccountEmail sends. *)
Definition metadata_request : Request :=
  {| Method := "GET";
     URL := metadataHost +:+ "/computeMetadata/v1/instance/service-accounts/default/email";
     Header := [("Metadata-Flavor", "Google")];
     Body := None |}.

(** The prediction endpoint answers the call for [prompt] with [resp]: the
    client is obtained, the request builds, the response arrives and its
    body is read to the end. *)
Definition endpoint_responds `{GoRuntime} (W : World) (fn : GenerateTextFn)
    (prompt : string) (resp : Response) : Prop :=
  google_DefaultClient W cloud_platform_scope = None /\
  http_NewRequest_err "POST" (vertexPredictURL fn) = None /\
  http_Do W (Client_Google cloud_platform_scope) (predict_request fn prompt) = Ok resp /\
  BodyErr resp = None.

(** ** Sample runtime, worlds and workers *)

(** A runtime for the examples.  Its functions agree with the Go library on
    the inputs the examples use: ASCII text, well-formed URLs, and the
    response bodies listed in the decoder tables. *)
Definition is_asciiSpace (a : Ascii.ascii) : bool :=
  bool_decide (Ascii.nat_of_ascii a ∈ [9; 10; 11; 12; 13; 32]%nat).

Fixpoint trim_left (s : string) : string :=
  match s with
  | String a s' => if is_asciiSpace a then trim_left s' else s
  | EmptyString => EmptyString
  end.

Definition ascii_TrimSpace (s : string) : string :=
  String.rev (trim_left (String.rev (trim_left s))).

Definition quote : string := String (Ascii.ascii_of_nat 34) "".

(** [{"predictions":[]}] *)
Definition body_no_predictions : string :=
  "{" +:+ quote +:+ "predictions" +:+ quote +:+ ":[]}".

(** [{"predictions":[{"content":"..."}]}] *)
Definition body_prediction (content : string) : string :=
  "{" +:+ quote +:+ "predictions" +:+ quote +:+ ":[{" +:+ quote +:+ "content" +:+ quote
  +:+ ":" +:+ quote +:+ content +:+ quote +:+ "}]}".

(** [{"error":{"code":429,"message":"quota exceeded","status":"RESOURCE_EXHAUSTED"}}] *)
Definition body_quota : string :=
  "{" +:+ quote +:+ "error" +:+ quote +:+ ":{" +:+ quote +:+ "code" +:+ quote +:+ ":429,"
  +:+ quote +:+ "message" +:+ quote +:+ ":" +:+ quote +:+ "quota exceeded" +:+ quote +:+ ","
  +:+ quote +:+ "status" +:+ quote +:+ ":" +:+ quote +:+ "RESOURCE_EXHAUSTED" +:+ quote +:+ "}}".

Definition sample_predictions : list (string * VertexResponse) :=
  [(body_no_predictions, {| Predictions := [] |});
   (body_prediction "", {| Predictions := [{| Content := "" |}] |});
   (body_prediction "a", {| Predictions := [{| Content := "a" |}] |});
   (body_prediction "c", {| Predictions := [{| Content := "c" |}] |})].

Definition sample_Unmarshal_VertexResponse (body : string) : result VertexResponse :=
  match List.find (fun kv => bool_decide (fst kv = body)) sample_predictions with
  | Some kv => Ok (snd kv)
  | None => Err (errors_New "unexpected end of JSON input")
  end.

Definition sample_Unmarshal_googleApiError (body : string) : option googleApiError :=
  if bool_decide (body = body_quota)
  then Some {| Error_Code := 429;
               Error_Message := "quota exceeded";
               Error_Status := "RESOURCE_EXHAUSTED" |}
  else None.

Definition sample_runtime : GoRuntime :=
  {| strings_TrimSpace := ascii_TrimSpace;
     url_QueryEscape := fun s => s;
     fmt_precision := fun n s => String.substring 0 n s;
     http_NewRequest_err := fun _ _ => None;
     json_Decode_tokenInfo := fun _ => Err (errors_New "EOF");
     json_Unmarshal_googleApiError := sample_Unmarshal_googleApiError;
     json_Unmarshal_VertexResponse := sample_Unmarshal_VertexResponse |}.

(** The prompt a prediction request carries. *)
Definition prompt_of_request (req : Request) : string :=
  match Body req with
  | Some doc =>
      match json_field "instances" doc with
      | Some (JArray [instance]) =>
          match json_field "prompt" instance with
          | Some (JString prompt) => prompt
          | _ => ""
          end
      | _ => ""
      end
  | None => ""
  end.

(** A worker on GCE: the metadata server names the service account, and the
    prediction endpoint answers each prompt as [predict] says. *)
Definition gce_world (predict : string -> result Response) : World :=
  {| http_Do := fun c req =>
       match c with
       | Client_Timeout _ =>
           Ok {| StatusCode := 200;
                 BodyBytes := "worker@sandboxportal.iam.gserviceaccount.com" +:+ String (Ascii.ascii_of_nat 10) "";
                 BodyErr := None |}
       | Client_Default => Err (errors_New "dial tcp: i/o timeout")
       | Client_Google _ => predict (prompt_of_request req)
       end;
     google_FindDefaultCredentials := fun _ =>
       Err (errors_New "could not find default credentials");
     google_DefaultClient := fun _ => None |}.

Definition respond (status : Z) (body : string) : result Response :=
  Ok {| StatusCode := status; BodyBytes := body; BodyErr := None |}.

(** The same worker when no credentials can be found for the prediction
    client. *)
Definition no_credentials_world : World :=
  {| http_Do := http_Do (gce_world (fun _ => respond 200 body_no_predictions));
     google_FindDefaultCredentials := fun _ =>
       Err (errors_New "could not find default credentials");
     google_DefaultClient := fun _ =>
       Some (errors_New "could not find default credentials") |}.

(** A host with neither metadata server nor credentials. *)
Definition no_identity_world : World :=
  {| http_Do := fun _ _ => Err (errors_New "dial tcp: i/o timeout");
     google_FindDefaultCredentials := fun _ =>
       Err (errors_New "could not find default credentials");
     google_DefaultClient := fun _ => None |}.

(** The stub of the end-to-end scenario: "A" gives "a", "C" gives "c", and
    the request for "B" fails with "boom". *)
Definition scenario_world : World :=
  gce_world (fun prompt =>
    if bool_decide (prompt = "A") then respond 200 (body_prediction "a")
    else if bool_decide (prompt = "C") then respond 200 (body_prediction "c")
    else Err (errors_New "boom")).

Definition sample_worker : GenerateTextFn :=
  snd (@Setup sample_runtime no_credentials_world
         (NewGenerateTextFn "sandboxportal" "us-central1" "gemini-pro")).

Definition failed_worker : GenerateTextFn :=
  snd (@Setup sample_runtime no_identity_world
         (NewGenerateTextFn "sandboxportal" "us-central1" "gemini-pro")).

Definition no_credentials_message : string :=
  "failed to create google default client (ADC issue?): could not find default credentials".

Definition prompt_A : Prompt := {| Prompt_Prompt := "A" |}.
Definition prompt_B : Prompt := {| Prompt_Prompt := "B" |}.
Definition prompt_C : Prompt := {| Prompt_Prompt := "C" |}.

(** ** A run on a worker that was set up, as a function of its map *)

(** One call on the worker [fn] whose map is [mp]: the trace and the map
    afterwards. *)
Definition step_ready `{GoRuntime} (fn : GenerateTextFn) (mp : gmap string Z) (c : Call)
  : list Event * gmap string Z :=
  match identityErr fn with
  | Some ierr => ([EvLog Errorf skip_format [AStr (Prompt_Prompt (snd c)); AErr ierr]], mp)
  | None =>
      match callVertexPredictAPI (fst c) fn (Prompt_Prompt (snd c)) with
      | (t, Ok result) =>
          (t ++ [EvEmit {| GeminiResult_Prompt := Prompt_Prompt (snd c);
                           GeneratedText := result |}], mp)
      | (t, Err err) =>
          (t ++ failure_events fn (snd c) err (default 0 (mp !! Error err)),
           record_failure mp (Error err))
      end
  end.

Fixpoint run_ready `{GoRuntime} (fn : GenerateTextFn) (mp : gmap string Z)
    (calls : list Call) : list (list Event) * gmap string Z :=
  match calls with
  | [] => ([], mp)
  | c :: rest =>
      let '(t, mp1) := step_ready fn mp c in
      let '(ts, mp') := run_ready fn mp1 rest in
      (t :: ts, mp')
  end.

(** The record a call contributes to the output, if any. *)
Definition prediction `{GoRuntime} (fn : GenerateTextFn) (c : Call) : option GeminiResult :=
  match identityErr fn with
  | Some _ => None
  | None =>
      match snd (callVertexPredictAPI (fst c) fn (Prompt_Prompt (snd c))) with
      | Ok result => Some {| GeminiResult_Prompt := Prompt_Prompt (snd c);
                             GeneratedText := result |}
      | Err _ => None
      end
  end.

(** The sum of the stored counts. *)
Definition total_count (mp : gmap string Z) : Z :=
  map_fold (fun _ v acc => v + acc) 0 mp.

(** The log lines that report a failed prediction: the error line and the
    cap-reached warning. *)
Definition is_failure_line (l : Severity * string * list Arg) : bool :=
  bool_decide (snd (fst l) = predict_error_format \/ snd (fst l) = error_cap_format).

Definition failure_lines (t : list Event) : list (Severity * string * list Arg) :=
  List.filter is_failure_line (logs t).

(** The request getADCIdentityEmail sends for an access token. *)
Definition tokeninfo_request `{GoRuntime} (accessToken : string) : Request :=
  {| Method := "GET";
     URL := "https://www.googleapis.com/oauth2/v3/tokeninfo" +:+ "?access_token="
            +:+ url_QueryEscape accessToken;
     Header := [];
     Body := None |}.

(** ** The launcher: [run] and [main] *)

Module Main.

Definition outputDataset : string := "sandboxdataset".

Definition outputTable : string := "gemini_dataflow_results".

(** The flags after [flag.Parse()], as [flag.Lookup(name).Value.String()]
    reads them; [model_name] is [None] when the flag is not given. *)
Record Flags := {
  flag_project : string;
  flag_region : string;
  flag_temp_location : string;
  flag_staging_location : string;
  flag_model_name : option string
}.

(** [*modelName], with the default the flag is declared with. *)
Definition modelName (flags : Flags) : string :=
  default "gemini-pro" (flag_model_name flags).

Record PromptFromBQ := { PromptFromBQ_Prompt : string }.

(** The graph [run] builds, stage by stage. *)
Record Pipeline := {
  ReadPrompts_project : string;
  ReadPrompts_query : string;
  FormatPrompts : PromptFromBQ -> list Prompt;
  CallVertexAI : GenerateTextFn;
  WriteResults_project : string;
  WriteResults_table : string
}.

(** What the launcher's host answers: the world of the credential lookup,
    the outcome of [beamx.Run] on a pipeline, and [endTime.Sub(startTime)]
    in nanoseconds. *)
Record Host := {
  host_world : World;
  beamx_Run : Pipeline -> option error;
  elapsed : Z
}.

Inductive MainEvent : Type :=
| Log (format : string) (args : list Arg)    (* log.Println, log.Printf *)
| Fatal (format : string) (args : list Arg)  (* log.Fatal, log.Fatalf *)
| Effect (ev : Event)                        (* an effect of getADCIdentityEmail *)
| RunPipeline (p : Pipeline).                (* beamx.Run(ctx, p) *)

(** How the process ends: [main] returns, or [log.Fatal] calls
    [os.Exit(1)]. *)
Inductive Exit : Type :=
| Returned
| Exited (code : Z).

Definition query : string := "
    SELECT CONCAT('generate nutrition label for ', products_brand_name) AS prompt
    FROM sandboxdataset.food_products
    LIMIT 100
".

Definition run (projectID region tempLocation stagingLocation model : string)
  : list MainEvent * (Pipeline * option error) :=
  let geminiFn := NewGenerateTextFn projectID region model in
  let tableName := projectID +:+ ":" +:+ outputDataset +:+ "." +:+ outputTable in
  ([Log "Pipeline graph constructed successfully." []],
   ({| ReadPrompts_project := projectID;
       ReadPrompts_query := query;
       FormatPrompts := fun bqPrompt =>
         [{| Prompt_Prompt := PromptFromBQ_Prompt bqPrompt |}];
       CallVertexAI := geminiFn;
       WriteResults_project := projectID;
       WriteResults_table := tableName |},
    None)).

Section Launcher.
Context `{GoRuntime}.

Definition main (host : Host) (flags : Flags) : list MainEvent * Exit :=
  let project := flag_project flags in
  if bool_decide (project = "") then
    ([Fatal "Missing required flag --project" []], Exited 1)
  else
  let region := flag_region flags in
  if bool_decide (region = "") then
    ([Fatal "Missing required flag --region" []], Exited 1)
  else
  let temp_location := flag_temp_location flags in
  if bool_decide (temp_location = "") then
    ([Fatal "Missing required flag --temp_location" []], Exited 1)
  else
  let stagingLocation := flag_staging_location flags in
  let t_staging :=
    if bool_decide (stagingLocation = "") then
      [Log "Warning: Missing flag --staging_location, may be required for DataflowRunner" []]
    else [] in
  let model := modelName flags in
  (* Determine and log launcher identity *)
  let '(t_adc, r) := getADCIdentityEmail (host_world host) in
  let '(t_identity, launcherIdentity) :=
    match r with
    | Err err =>
        ([Log "Warning: Could not determine launcher identity via ADC: %v" [AErr err]],
         "unknown")
    | Ok identityEmail => ([], identityEmail)
    end in
  let t_start :=
    [Log "Launcher Identity (determined via ADC): %s" [AStr launcherIdentity];
     Log "Starting Dataflow job..." [];
     Log "  Project: %s" [AStr project];
     Log "  Region: %s" [AStr region];
     Log "  Temp Location: %s" [AStr temp_location];
     Log "  Staging Location: %s" [AStr stagingLocation];
     Log "  Model Name: %s (using Vertex AI endpoint)" [AStr model];
     Log "  Output Table: %s:%s.%s" [AStr project; AStr outputDataset; AStr outputTable]] in
  let '(t_run, (p, err)) := run project region temp_location stagingLocation model in
  let t := t_staging ++ (Effect <$> t_adc) ++ t_identity ++ t_start ++ t_run in
  match err with
  | Some err =>
      (t ++ [Fatal "Failed to construct the pipeline graph: %v" [AErr err]], Exited 1)
  | None =>
      match beamx_Run host p with
      | Some err =>
          (t ++ [RunPipeline p;
                 Log "Pipeline failed after %v." [AInt (elapsed host)];
                 Fatal "Failed to execute pipeline: %v" [AErr err]],
           Exited 1)
      | None =>
          let bqTableURL :=
            "https://console.cloud.google.com/bigquery?project=" +:+ project
            +:+ "&page=table&d=" +:+ outputDataset +:+ "&p=" +:+ project
            +:+ "&t=" +:+ outputTable in
          (t ++ [RunPipeline p;
                 Log "Pipeline finished successfully." [];
                 Log "Total execution time: %v." [AInt (elapsed host)];
                 Log "BigQuery results table URL: %s" [AStr bqTableURL]],
           Returned)
      end
  end.

End Launcher.

(** The pipelines handed to [beamx.Run], the fatal lines, and the other
    log lines of a launch. *)
Definition pipelines_run (t : list MainEvent) : list Pipeline :=
  omap (fun ev => match ev with RunPipeline p => Some p | _ => None end) t.

Definition fatals (t : list MainEvent) : list (string * list Arg) :=
  omap (fun ev => match ev with Fatal f a => Some (f, a) | _ => None end) t.

Definition log_lines (t : list MainEvent) : list (string * list Arg) :=
  omap (fun ev => match ev with Log f a => Some (f, a) | _ => None end) t.

Definition effects (t : list MainEvent) : list Event :=
  omap (fun ev => match ev with Effect e => Some e | _ => None end) t.

End Main.

(** ** Sample launches *)

Definition sample_flags : Main.Flags :=
  {| Main.flag_project := "sandboxportal";
     Main.flag_region := "us-central1";
     Main.flag_temp_location := "gs://portalbucketsandbox/temp";
     Main.flag_staging_location := "gs://portalbucketsandbox/staging";
     Main.flag_model_name := None |}.

(** A launcher host without application default credentials, on which the
    pipeline runs to the end. *)
Definition sample_host : Main.Host :=
  {| Main.host_world := no_identity_world;
     Main.beamx_Run := fun _ => None;
     Main.elapsed := 90 * 1000000000 |}.

(** A world in which the token introspection answers with an email. *)
Definition adc_world : World :=
  {| http_Do := fun c _ =>
       match c with
       | Client_Default =>
           Ok {| StatusCode := 200; BodyBytes := "tokeninfo"; BodyErr := None |}
       | _ => Err (errors_New "dial tcp: i/o timeout")
       end;
     google_FindDefaultCredentials := fun _ =>
       Ok {| TokenSource_Token := Ok {| AccessToken := "ya29token"; Valid := true |} |};
     google_DefaultClient := fun _ => None |}.


(** The sample runtime with a token-info decoder that finds the email
    [email], or the error description [description], in every body. *)
Definition adc_runtime (email description : string) : GoRuntime :=
  {| strings_TrimSpace := ascii_TrimSpace;
     url_QueryEscape := fun s => s;
     fmt_precision := fun n s => String.substring 0 n s;
     http_NewRequest_err := fun _ _ => None;
     json_Decode_tokenInfo := fun _ =>
       Ok {| Email := email; EmailVerified := "true"; Error_description := description |};
     json_Unmarshal_googleApiError := sample_Unmarshal_googleApiError;
     json_Unmarshal_VertexResponse := sample_Unmarshal_VertexResponse |}.

(** * Properties *)

Section Properties.
Context `{GoRuntime}.

(** *** The prediction call, case by case *)

Lemma json_Marshal_reqBody prompt :
  json_Marshal (reqBody prompt) = Ok (request_document prompt).
Proof. reflexivity. Qed.

Lemma callVertexPredictAPI_cases W fn prompt :
  callVertexPredictAPI W fn prompt =
  match google_DefaultClient W cloud_platform_scope with
  | Some e =>
      ([EvDefaultClient cloud_platform_scope],
       Err (fmt_Errorf_w "failed to create google default client (ADC issue?): " e))
  | None =>
  match http_NewRequest_err "POST" (vertexPredictURL fn) with
  | Some e =>
      ([EvDefaultClient cloud_platform_scope],
       Err (fmt_Errorf_w "failed to create http request for vertex ai: " e))
  | None =>
  let sent := [EvDefaultClient cloud_platform_scope;
               EvHTTP (Client_Google cloud_platform_scope) (predict_request fn prompt)] in
  match http_Do W (Client_Google cloud_platform_scope) (predict_request fn prompt) with
  | Err e =>
      (sent, Err (fmt_Errorf_w "failed to send request to vertex ai predict api: " e))
  | Ok resp =>
  match BodyErr resp with
  | Some e => (sent, Err (fmt_Errorf_w "failed to read vertex response body: " e))
  | None =>
  if StatusCode resp =? 200 then
    match json_Unmarshal_VertexResponse (BodyBytes resp) with
    | Err err =>
        (sent, Err (wrapError ("failed to unmarshal vertex response (body: "
                               +:+ fmt_precision 100 (BodyBytes resp)
                               +:+ "...): " +:+ Error err) err))
    | Ok vertexResp =>
        match Predictions vertexResp with
        | [] =>
            (sent ++ [EvLog Warnf "Received empty predictions list from Vertex AI for prompt: %.50s..."
                            [AStr prompt]],
             Ok "No prediction content from Vertex AI")
        | first :: _ =>
            if bool_decide (Content first = "") then
              (sent ++ [EvLog Warnf "Received empty content in first prediction from Vertex AI for prompt: %.50s..."
                              [AStr prompt]],
               Ok "Empty prediction content from Vertex AI")
            else (sent, Ok (Content first))
        end
    end
  else
    let raw := errors_New ("vertex ai predict api request failed with status "
                            +:+ pretty (StatusCode resp) +:+ ": " +:+ BodyBytes resp) in
    match json_Unmarshal_googleApiError (BodyBytes resp) with
    | Some e =>
        if bool_decide (Error_Message e = "") then (sent, Err raw)
        else (sent,
              Err (errors_New ("vertex ai predict api request failed with status "
                                +:+ pretty (StatusCode resp) +:+ " (" +:+ Error_Status e
                                +:+ "): " +:+ Error_Message e)))
    | None => (sent, Err raw)
    end
  end end end end.
Proof.
  unfold callVertexPredictAPI, DefaultClient, client_Do, io_ReadAll, http_NewRequest,
    beamlog, event, lift, orWrap, bind, ret, fail, http_StatusOK.
  rewrite json_Marshal_reqBody.
  destruct (google_DefaultClient W cloud_platform_scope); [reflexivity|].
  destruct (http_NewRequest_err "POST" (vertexPredictURL fn)); [reflexivity|].
  change (Header_Set _ _ _) with (predict_request fn prompt).
  destruct (http_Do W _ _) as [resp|e]; [|reflexivity].
  cbn [fst snd app].
  destruct (BodyErr resp); [reflexivity|].
  destruct (StatusCode resp =? 200); cbn [negb].
  - destruct (json_Unmarshal_VertexResponse _) as [vertexResp|]; [|reflexivity].
    destruct (Predictions vertexResp) as [|first ?]; [reflexivity|].
    destruct (bool_decide _); reflexivity.
  - destruct (json_Unmarshal_googleApiError _); [|reflexivity].
    destruct (bool_decide _); reflexivity.
Qed.

(** The prediction call reads the worker's configuration only. *)
Lemma callVertexPredictAPI_set_errorCounts W fn mp prompt :
  callVertexPredictAPI W (set_errorCounts fn mp) prompt = callVertexPredictAPI W fn prompt.
Proof. reflexivity. Qed.

(** Each outcome of the call with the shape of its trace. *)
Lemma callVertexPredictAPI_trace W fn prompt :
  let '(t, r) := callVertexPredictAPI W fn prompt in
  emitted t = [] /\ counter_incs t = [] /\
  (forall e, r = Err e -> logs t = []) /\
  (requests t = [] \/
   requests t = [(Client_Google cloud_platform_scope, predict_request fn prompt)]) /\
  (google_DefaultClient W cloud_platform_scope = None ->
   http_NewRequest_err "POST" (vertexPredictURL fn) = None ->
   requests t = [(Client_Google cloud_platform_scope, predict_request fn prompt)]) /\
  Exists (fun ev => is_predict_event ev = true) t.
Proof.
  rewrite callVertexPredictAPI_cases. cbv zeta.
  repeat case_match; simplify_eq; cbn; repeat split; intros; simplify_eq; auto;
    try (constructor; reflexivity).
Qed.

Lemma set_errorCounts_id fn : set_errorCounts fn (errorCounts fn) = fn.
Proof. by destruct fn. Qed.

Lemma count_of_set fn mp m : count_of (set_errorCounts fn (Some mp)) m = default 0 (mp !! m).
Proof. reflexivity. Qed.

(** *** One call on a worker that was set up *)

Lemma ProcessElement_ready W fn mp p :
  ProcessElement W (set_errorCounts fn (Some mp)) p =
  match identityErr fn with
  | Some ierr =>
      ([EvLog Errorf skip_format [AStr (Prompt_Prompt p); AErr ierr]],
       Some (set_errorCounts fn (Some mp)))
  | None =>
      match callVertexPredictAPI W fn (Prompt_Prompt p) with
      | (t, Ok result) =>
          (t ++ [EvEmit {| GeminiResult_Prompt := Prompt_Prompt p; GeneratedText := result |}],
           Some (set_errorCounts fn (Some mp)))
      | (t, Err err) =>
          (t ++ failure_events fn p err (default 0 (mp !! Error err)),
           Some (set_errorCounts fn (Some (record_failure mp (Error err)))))
      end
  end.
Proof.
  unfold ProcessElement. cbn [identityErr set_errorCounts].
  destruct (identityErr fn); [reflexivity|].
  rewrite callVertexPredictAPI_set_errorCounts.
  destruct (callVertexPredictAPI W fn (Prompt_Prompt p)) as [t [result|err]]; [reflexivity|].
  unfold failure_events, record_failure, store_count, count_of, maxRedundantErrors.
  cbn [errorCounts set_errorCounts workerIdentity ErrorCounter].
  set (c := default 0 (mp !! Error err)).
  destruct (Z.ltb_spec c 20); [rewrite (proj2 (Z.leb_le c 20)) by lia; reflexivity|].
  destruct (Z.eqb_spec c 20); [rewrite (proj2 (Z.leb_le c 20)) by lia; reflexivity|].
  rewrite (proj2 (Z.leb_gt c 20)) by lia. reflexivity.
Qed.

Lemma record_failure_same mp m :
  default 0 (record_failure mp m !! m) = next_count (default 0 (mp !! m)).
Proof.
  unfold record_failure, next_count.
  destruct (default 0 (mp !! m) <=? maxRedundantErrors); [|reflexivity].
  by rewrite lookup_insert_eq.
Qed.

Lemma record_failure_other mp m m' :
  m <> m' -> record_failure mp m !! m' = mp !! m'.
Proof.
  intros Hne. unfold record_failure.
  destruct (default 0 (mp !! m) <=? maxRedundantErrors); [|reflexivity].
  by rewrite lookup_insert_ne.
Qed.

Lemma logs_app t1 t2 : logs (t1 ++ t2) = logs t1 ++ logs t2.
Proof. apply omap_app. Qed.

Lemma emitted_app t1 t2 : emitted (t1 ++ t2) = emitted t1 ++ emitted t2.
Proof. apply omap_app. Qed.

Lemma counter_incs_app t1 t2 : counter_incs (t1 ++ t2) = counter_incs t1 ++ counter_incs t2.
Proof. apply omap_app. Qed.

Lemma fails_with_inv fn m c :
  fails_with fn m c = true ->
  identityErr fn = None /\
  exists t0 err,
    callVertexPredictAPI (fst c) fn (Prompt_Prompt (snd c)) = (t0, Err err) /\ Error err = m.
Proof.
  unfold fails_with, failure_message. intros Hf%bool_decide_eq_true.
  destruct (identityErr fn); [discriminate|]. split; [reflexivity|].
  destruct (callVertexPredictAPI _ _ _) as [t0 [a|err]]; [discriminate|].
  exists t0, err. split; [reflexivity|]. congruence.
Qed.

(** The count stored for a message after [i] more failures with it. *)
Lemma next_count_shift c i :
  0 <= i ->
  Z.max (next_count c) (Z.min (next_count c + i) 21) = Z.max c (Z.min (c + (i + 1)) 21).
Proof.
  intros Hi. unfold next_count, maxRedundantErrors.
  destruct (Z.leb_spec c 20); lia.
Qed.

Lemma logs_failure_events fn p err c :
  logs (failure_events fn p err c) =
  if c <? maxRedundantErrors then
    [(Errorf, predict_error_format,
      [AStr (workerIdentity fn); AStr (Prompt_Prompt p); AInt (c + 1); AErr err])]
  else if c =? maxRedundantErrors then
    [(Warnf, error_cap_format,
      [AInt maxRedundantErrors; AStr (workerIdentity fn); AStr (Error err)])]
  else [].
Proof.
  unfold failure_events.
  destruct (c <? maxRedundantErrors); [reflexivity|].
  destruct (c =? maxRedundantErrors); reflexivity.
Qed.

(** *** Runs of failures that share one message *)

Lemma run_same_message fn m calls :
  Forall (fun c => fails_with fn m c = true) calls ->
  forall mp,
  exists ts mp',
    run (set_errorCounts fn (Some mp)) calls = (ts, Some (set_errorCounts fn (Some mp'))) /\
    length ts = length calls /\
    length (logs (concat ts))
      = Z.to_nat (Z.min (Z.of_nat (length calls)) (21 - default 0 (mp !! m))) /\
    forall (i : nat) t, ts !! i = Some t ->
      exists c t0 err,
        calls !! i = Some c /\
        callVertexPredictAPI (fst c) fn (Prompt_Prompt (snd c)) = (t0, Err err) /\
        Error err = m /\
        logs t0 = [] /\
        t = t0 ++ failure_events fn (snd c) err
                    (Z.max (default 0 (mp !! m))
                           (Z.min (default 0 (mp !! m) + Z.of_nat i) 21)).
Proof.
  induction 1 as [|c calls Hc _ IH]; intros mp.
  - exists [], mp. cbn. repeat split; [lia|]. intros i t Hi. by rewrite lookup_nil in Hi.
  - destruct (fails_with_inv _ _ _ Hc) as (Hid & t0 & err & Hcall & Hm).
    destruct (IH (record_failure mp m)) as (ts & mp' & Hrun & Hlen & Hlogs & Hts).
    pose proof (callVertexPredictAPI_trace (fst c) fn (Prompt_Prompt (snd c))) as Htr.
    rewrite Hcall in Htr. destruct Htr as (_ & _ & Hnolog & _).
    specialize (Hnolog err eq_refl).
    exists ((t0 ++ failure_events fn (snd c) err (default 0 (mp !! m))) :: ts), mp'.
    cbn [run]. rewrite ProcessElement_ready, Hid, Hcall, Hm, Hrun.
    split; [reflexivity|]. split; [cbn; lia|]. split.
    + cbn [concat length]. rewrite !logs_app, !length_app, Hnolog, Hlogs.
      rewrite logs_failure_events, record_failure_same.
      unfold next_count, maxRedundantErrors. cbn [length].
      set (c0 := default 0 (mp !! m)).
      destruct (Z.ltb_spec c0 20); [rewrite (proj2 (Z.leb_le c0 20)) by lia; cbn; lia|].
      destruct (Z.eqb_spec c0 20); [rewrite (proj2 (Z.leb_le c0 20)) by lia; cbn; lia|].
      rewrite (proj2 (Z.leb_gt c0 20)) by lia. cbn. lia.
    + intros [|i] t Hi.
      * cbn in Hi. injection Hi as <-. exists c, t0, err.
        repeat split; try done. do 2 f_equal. lia.
      * cbn in Hi. destruct (Hts i t Hi) as (c' & t0' & err' & Hc' & Hcall' & Hm' & Hl' & Ht').
        exists c', t0', err'. repeat split; try done.
        rewrite Ht'. do 2 f_equal. rewrite record_failure_same.
        rewrite next_count_shift by lia. f_equal. lia.
Qed.

(** C1. Failures that all carry the same message, on a worker that was set
    up and holds no count for the message yet: the run completes, the i-th
    failure (from 0) logs one error line with the new count [i + 1] while
    [i < 20], the 21st logs the one cap-reached warning, every later one logs
    nothing, and the lines number [min n 21] in all. *)
Theorem same_message_logged_min_n_21 fn mp m calls :
  errorCounts fn = Some mp ->
  count_of fn m = 0 ->
  Forall (fun c => fails_with fn m c = true) calls ->
  exists ts fn',
    run fn calls = (ts, Some fn') /\
    length ts = length calls /\
    length (logs (concat ts)) = Nat.min (length calls) 21 /\
    forall (i : nat) t, ts !! i = Some t ->
      ((i < 20)%nat ->
         exists W p err, calls !! i = Some (W, p) /\ Error err = m /\
           logs t = [(Errorf, predict_error_format,
                      [AStr (workerIdentity fn); AStr (Prompt_Prompt p);
                       AInt (Z.of_nat i + 1); AErr err])]) /\
      (i = 20%nat ->
         logs t = [(Warnf, error_cap_format,
                    [AInt 20; AStr (workerIdentity fn); AStr m])]) /\
      ((20 < i)%nat -> logs t = []).
Proof.
  intros Hmp Hfresh Hall.
  unfold count_of in Hfresh. rewrite Hmp in Hfresh.
  destruct (run_same_message fn m calls Hall mp)
    as (ts & mp' & Hrun & Hlen & Hlogs & Hts).
  rewrite <- Hmp, set_errorCounts_id in Hrun.
  exists ts, (set_errorCounts fn (Some mp')).
  split; [exact Hrun|]. split; [exact Hlen|]. split.
  { rewrite Hlogs, Hfresh. lia. }
  intros i t Hi.
  destruct (Hts i t Hi) as ([W p] & t0 & err & Hc & Hcall & Hm & Hl & ->).
  rewrite Hfresh. cbn [snd].
  rewrite logs_app, Hl, logs_failure_events. cbn [app].
  unfold maxRedundantErrors.
  set (k := Z.max 0 (Z.min (0 + Z.of_nat i) 21)).
  repeat split.
  - intros Hlt. exists W, p, err. repeat split; try done.
    replace k with (Z.of_nat i) by lia.
    by rewrite (proj2 (Z.ltb_lt _ 20)) by lia.
  - intros ->. rewrite Hm. reflexivity.
  - intros Hgt. replace k with 21 by lia. reflexivity.
Qed.

(** *** A worker without identity *)

(** C2. Once [identityErr] is set, every call of a run leaves exactly one
    event, the error line that names the dropped record: nothing is emitted,
    the prediction client is not touched, the error counter is not
    incremented, and the worker ([errorCounts] included) stays as it was. *)
Theorem identity_failed_only_logs fn ierr calls :
  identityErr fn = Some ierr ->
  exists ts,
    run fn calls = (ts, Some fn) /\
    ts = (fun c : Call =>
            [EvLog Errorf skip_format [AStr (Prompt_Prompt (snd c)); AErr ierr]]) <$> calls /\
    Forall (fun t => emitted t = [] /\ counter_incs t = [] /\ requests t = [] /\
                     forallb (fun ev => negb (is_predict_event ev)) t = true /\
                     length (logs t) = 1%nat) ts.
Proof.
  intros Hid. eexists. split; [|split; [reflexivity|]].
  - induction calls as [|c calls IH]; [reflexivity|].
    cbn [run fmap list_fmap]. unfold ProcessElement at 1. rewrite Hid.
    by rewrite IH.
  - apply Forall_fmap, Forall_forall. intros c _. cbn. auto.
Qed.

(** *** What one call emits *)

Lemma ProcessElement_emitted W fn p :
  emitted (fst (ProcessElement W fn p)) =
  match identityErr fn, snd (callVertexPredictAPI W fn (Prompt_Prompt p)) with
  | None, Ok C => [{| GeminiResult_Prompt := Prompt_Prompt p; GeneratedText := C |}]
  | _, _ => []
  end.
Proof.
  unfold ProcessElement. destruct (identityErr fn); [reflexivity|].
  pose proof (callVertexPredictAPI_trace W fn (Prompt_Prompt p)) as Htr.
  destruct (callVertexPredictAPI W fn (Prompt_Prompt p)) as [t [C|err]];
    destruct Htr as (Hem & _).
  - cbn [fst snd]. by rewrite emitted_app, Hem.
  - cbn [snd]. repeat case_match; cbn [fst]; by rewrite emitted_app, Hem.
Qed.

(** C3. With an identity and a prediction that succeeds with content [C],
    the call emits the one record [{prompt, C}] and the worker carries on;
    when the prediction fails, nothing is emitted. *)
Theorem prompt_round_trip W fn p t :
  (forall C, identityErr fn = None ->
     callVertexPredictAPI W fn (Prompt_Prompt p) = (t, Ok C) ->
     emitted (fst (ProcessElement W fn p))
       = [{| GeminiResult_Prompt := Prompt_Prompt p; GeneratedText := C |}] /\
     snd (ProcessElement W fn p) = Some fn) /\
  (forall err,
     callVertexPredictAPI W fn (Prompt_Prompt p) = (t, Err err) ->
     emitted (fst (ProcessElement W fn p)) = []).
Proof.
  split.
  - intros C Hid Hcall. rewrite ProcessElement_emitted, Hid, Hcall.
    split; [reflexivity|]. unfold ProcessElement. by rewrite Hid, Hcall.
  - intros err Hcall. rewrite ProcessElement_emitted, Hcall.
    by destruct (identityErr fn).
Qed.

(** *** The frame of one call *)

(** C10. On a worker that was set up, a call returns and leaves ProjectID,
    Region, ModelName, ErrorCounter, workerIdentity and identityErr as they
    were; when the record is skipped for want of an identity, or its
    prediction succeeds, errorCounts is unchanged as well. *)
Theorem ProcessElement_frame W fn mp p :
  errorCounts fn = Some mp ->
  exists t fn',
    ProcessElement W fn p = (t, Some fn') /\
    ProjectID fn' = ProjectID fn /\
    Region fn' = Region fn /\
    ModelName fn' = ModelName fn /\
    ErrorCounter fn' = ErrorCounter fn /\
    workerIdentity fn' = workerIdentity fn /\
    identityErr fn' = identityErr fn /\
    (identityErr fn <> None -> errorCounts fn' = errorCounts fn) /\
    (forall t0 C, callVertexPredictAPI W fn (Prompt_Prompt p) = (t0, Ok C) ->
                  errorCounts fn' = errorCounts fn).
Proof.
  intros Hmp. unfold ProcessElement.
  destruct (identityErr fn) as [ierr|] eqn:Hid.
  { do 2 eexists. split; [reflexivity|]. by rewrite Hid. }
  destruct (callVertexPredictAPI W fn (Prompt_Prompt p)) as [t0 [C|err]].
  { do 2 eexists. split; [reflexivity|]. by rewrite Hid. }
  unfold store_count. rewrite Hmp.
  repeat case_match; do 2 eexists; (split; [reflexivity|]); cbn; rewrite ?Hid;
    repeat split; done.
Qed.

(** *** Interleaved messages *)

Lemma record_failure_lookup_congr mp1 mp2 m :
  mp1 !! m = mp2 !! m -> record_failure mp1 m !! m = record_failure mp2 m !! m.
Proof.
  intros Heq. unfold record_failure. rewrite Heq.
  destruct (default 0 (mp2 !! m) <=? maxRedundantErrors); [|exact Heq].
  by rewrite !lookup_insert_eq.
Qed.

Lemma fails_with_true fn m c t0 err :
  identityErr fn = None ->
  callVertexPredictAPI (fst c) fn (Prompt_Prompt (snd c)) = (t0, Err err) ->
  fails_with fn m c = bool_decide (Error err = m).
Proof.
  intros Hid Hcall. unfold fails_with, failure_message. rewrite Hid, Hcall.
  apply bool_decide_ext. split; congruence.
Qed.

(** Running only the failures with message [m] gives the same traces for
    them, and the same count for [m], as running them among the other
    calls. *)
Lemma run_filter fn m calls :
  forall mp1 mp2, mp1 !! m = mp2 !! m ->
  exists ts mp1' mp2',
    run (set_errorCounts fn (Some mp1)) calls
      = (ts, Some (set_errorCounts fn (Some mp1'))) /\
    run (set_errorCounts fn (Some mp2)) (List.filter (fails_with fn m) calls)
      = (traces_of_message fn m calls ts, Some (set_errorCounts fn (Some mp2'))) /\
    mp1' !! m = mp2' !! m.
Proof.
  induction calls as [|c calls IH]; intros mp1 mp2 Heq.
  { exists [], mp1, mp2. by cbn. }
  cbn [run List.filter traces_of_message]. rewrite ProcessElement_ready.
  destruct (identityErr fn) as [ierr|] eqn:Hid.
  { assert (fails_with fn m c = false) as Hf.
    { unfold fails_with, failure_message. by rewrite Hid. }
    destruct (IH mp1 mp2 Heq) as (ts & mp1' & mp2' & Hrun1 & Hrun2 & Heq').
    rewrite Hrun1. eexists (_ :: ts), mp1', mp2'.
    split; [reflexivity|]. cbn [traces_of_message]. by rewrite Hf. }
  destruct (callVertexPredictAPI (fst c) fn (Prompt_Prompt (snd c)))
    as [t0 [C|err]] eqn:Hcall.
  { assert (fails_with fn m c = false) as Hf.
    { unfold fails_with, failure_message. by rewrite Hid, Hcall. }
    destruct (IH mp1 mp2 Heq) as (ts & mp1' & mp2' & Hrun1 & Hrun2 & Heq').
    rewrite Hrun1. eexists (_ :: ts), mp1', mp2'.
    split; [reflexivity|]. cbn [traces_of_message]. by rewrite Hf. }
  rewrite (fails_with_true fn m c t0 err Hid Hcall).
  destruct (decide (Error err = m)) as [Hm|Hm].
  - rewrite (bool_decide_eq_true_2 _ Hm). subst m.
    destruct (IH (record_failure mp1 (Error err)) (record_failure mp2 (Error err)))
      as (ts & mp1' & mp2' & Hrun1 & Hrun2 & Heq');
      [by apply record_failure_lookup_congr|].
    rewrite Hrun1. eexists (_ :: ts), mp1', mp2'.
    split; [reflexivity|]. split; [|exact Heq'].
    cbn [run]. rewrite ProcessElement_ready, Hid, Hcall, Hrun2. by rewrite Heq.
  - rewrite (bool_decide_eq_false_2 _ Hm).
    destruct (IH (record_failure mp1 (Error err)) mp2)
      as (ts & mp1' & mp2' & Hrun1 & Hrun2 & Heq');
      [by rewrite record_failure_other|].
    rewrite Hrun1. eexists (_ :: ts), mp1', mp2'.
    split; [reflexivity|]. split; [|exact Heq']. exact Hrun2.
Qed.

Lemma filter_other_message fn m1 m2 calls :
  m1 <> m2 ->
  Forall (fun c => fails_with fn m1 c = true) calls ->
  List.filter (fails_with fn m2) calls = [].
Proof.
  intros Hne. induction 1 as [|c calls Hc _ IH]; [reflexivity|].
  cbn [List.filter]. rewrite IH.
  destruct (fails_with_inv _ _ _ Hc) as (Hid & t0 & err & Hcall & Hm).
  rewrite (fails_with_true fn m2 c t0 err Hid Hcall), bool_decide_eq_false_2; [done|].
  congruence.
Qed.

(** C6. Each message has its own count and its own cap.  In a run of any
    calls, the failures with message [m] leave the traces, and [m] gets the
    count, of a run in which only these failures happen.  And however often
    failures with [m1] have been seen, a failure with another message [m2]
    whose count is below the cap is logged, with that count plus one. *)
Theorem distinct_messages_independent fn mp calls :
  errorCounts fn = Some mp ->
  exists ts fn',
    run fn calls = (ts, Some fn') /\
    (forall m, exists fn_m,
        run fn (List.filter (fails_with fn m) calls)
          = (traces_of_message fn m calls ts, Some fn_m) /\
        count_of fn' m = count_of fn_m m) /\
    (forall m1 m2 c,
        m1 <> m2 ->
        Forall (fun c' => fails_with fn m1 c' = true) calls ->
        fails_with fn m2 c = true ->
        count_of fn m2 < maxRedundantErrors ->
        exists err, Error err = m2 /\
          logs (fst (ProcessElement (fst c) fn' (snd c)))
            = [(Errorf, predict_error_format,
                [AStr (workerIdentity fn); AStr (Prompt_Prompt (snd c));
                 AInt (count_of fn m2 + 1); AErr err])]).
Proof.
  intros Hmp.
  assert (fn = set_errorCounts fn (Some mp)) as Hfn
    by (by rewrite <- Hmp, set_errorCounts_id).
  destruct (run_filter fn "" calls mp mp eq_refl) as (ts & mp' & _ & Hrun & _ & _).
  exists ts, (set_errorCounts fn (Some mp')).
  split; [by rewrite Hfn at 1|]. split.
  - intros m.
    destruct (run_filter fn m calls mp mp eq_refl) as (ts' & mp1 & mp2 & Hrun1 & Hrun2 & Heq).
    rewrite Hrun in Hrun1. injection Hrun1 as <- <-.
    exists (set_errorCounts fn (Some mp2)). split; [by rewrite Hfn at 1|].
    by rewrite !count_of_set, Heq.
  - intros m1 m2 c Hne Hall Hc Hlt.
    destruct (run_filter fn m2 calls mp mp eq_refl) as (ts' & mp1 & mp2 & Hrun1 & Hrun2 & Heq).
    rewrite Hrun in Hrun1. injection Hrun1 as <- <-.
    rewrite (filter_other_message fn m1 m2 calls Hne Hall) in Hrun2.
    cbn in Hrun2. injection Hrun2 as _ <-.
    destruct (fails_with_inv _ _ _ Hc) as (Hid & t0 & err & Hcall & Hm).
    exists err. split; [exact Hm|].
    rewrite ProcessElement_ready, Hid, Hcall. cbn [fst].
    pose proof (callVertexPredictAPI_trace (fst c) fn (Prompt_Prompt (snd c))) as Htr.
    rewrite Hcall in Htr. destruct Htr as (_ & _ & Hnolog & _).
    rewrite logs_app, (Hnolog err eq_refl), logs_failure_events, Hm, Heq. cbn [app].
    unfold count_of in *. rewrite Hmp in *.
    by rewrite (proj2 (Z.ltb_lt _ _) Hlt).
Qed.

(** *** The stored counts *)

(** C8, in the form that holds of the code.  On a worker that was set up a call returns, and
    no stored count decreases.  A failure with message [m] adds one to the
    error counter metric; it adds one to the count stored for [m] as long as
    that count is at most the cap, so the count goes up to 21; from then on
    the stored count stays where it is and nothing is logged. *)
Theorem stored_count_saturates W fn mp p :
  errorCounts fn = Some mp ->
  exists t fn',
    ProcessElement W fn p = (t, Some fn') /\
    (forall m, count_of fn m <= count_of fn' m) /\
    (forall m, failure_message fn (W, p) = Some m ->
       counter_incs t = [(ErrorCounter fn, 1)] /\
       (count_of fn m <= maxRedundantErrors -> count_of fn' m = count_of fn m + 1) /\
       (maxRedundantErrors < count_of fn m ->
          count_of fn' m = count_of fn m /\ logs t = [])).
Proof.
  intros Hmp.
  assert (fn = set_errorCounts fn (Some mp)) as Hfn
    by (by rewrite <- Hmp, set_errorCounts_id).
  assert (ProcessElement W fn p = ProcessElement W (set_errorCounts fn (Some mp)) p)
    as -> by (by rewrite <- Hfn).
  rewrite ProcessElement_ready.
  unfold failure_message. cbn [fst snd].
  destruct (identityErr fn) as [ierr|] eqn:Hid.
  { do 2 eexists. split; [reflexivity|]. rewrite <- Hfn. split; [lia|done]. }
  pose proof (callVertexPredictAPI_trace W fn (Prompt_Prompt p)) as Htr.
  destruct (callVertexPredictAPI W fn (Prompt_Prompt p)) as [t0 [C|err]].
  { do 2 eexists. split; [reflexivity|]. rewrite <- Hfn. split; [lia|done]. }
  destruct Htr as (_ & Hinc & Hnolog & _). specialize (Hnolog err eq_refl).
  do 2 eexists. split; [reflexivity|].
  assert (forall m, count_of fn m = default 0 (mp !! m)) as Hcount
    by (intros m; unfold count_of; by rewrite Hmp).
  split.
  - intros m. rewrite count_of_set, Hcount.
    destruct (decide (Error err = m)) as [<-|Hne].
    + rewrite record_failure_same. unfold next_count. case_match; lia.
    + rewrite record_failure_other by done. lia.
  - intros m [= <-]. rewrite count_of_set, Hcount, record_failure_same.
    unfold next_count. split; [|split].
    + rewrite counter_incs_app, Hinc. unfold failure_events.
      by repeat case_match.
    + intros Hle. by rewrite (proj2 (Z.leb_le _ _) Hle).
    + intros Hgt. rewrite (proj2 (Z.leb_gt _ _) Hgt). split; [done|].
      rewrite logs_app, Hnolog, logs_failure_events.
      unfold maxRedundantErrors in *.
      rewrite (proj2 (Z.ltb_ge _ 20)) by lia.
      destruct (Z.eqb_spec (default 0 (mp !! Error err)) 20); [lia|done].
Qed.

(** *** What the prediction call returns *)

Lemma append_cons c s b : String c s +:+ b = String c (s +:+ b).
Proof. reflexivity. Qed.

Lemma append_assoc a b c : (a +:+ b) +:+ c = a +:+ b +:+ c.
Proof.
  induction a as [|x a IH]; [reflexivity|].
  by rewrite !append_cons, IH.
Qed.

Lemma prefix_append s b : String.prefix s (s +:+ b) = true.
Proof.
  induction s as [|a s IH]; [by destruct b|].
  rewrite append_cons. cbn [String.prefix].
  destruct (Ascii.ascii_dec a a); [exact IH|done].
Qed.

Lemma Contains_unfold s substr :
  Contains s substr =
  if String.prefix substr s then true
  else match s with
       | EmptyString => false
       | String _ s' => Contains s' substr
       end.
Proof. by destruct s. Qed.

Lemma Contains_append a s b : Contains (a +:+ s +:+ b) s = true.
Proof.
  induction a as [|c a IH].
  - change ("" +:+ s +:+ b) with (s +:+ b). by rewrite Contains_unfold, prefix_append.
  - rewrite append_cons, Contains_unfold, IH. by case_match.
Qed.

Lemma append_empty_r s : s +:+ "" = s.
Proof. induction s as [|c s IH]; [done|]. by rewrite append_cons, IH. Qed.

Lemma Contains_suffix a s : Contains (a +:+ s) s = true.
Proof. rewrite <- (append_empty_r s) at 1. apply Contains_append. Qed.

Lemma callVertexPredictAPI_responds W fn prompt resp :
  endpoint_responds W fn prompt resp ->
  snd (callVertexPredictAPI W fn prompt) =
  if StatusCode resp =? 200 then
    match json_Unmarshal_VertexResponse (BodyBytes resp) with
    | Err err =>
        Err (wrapError ("failed to unmarshal vertex response (body: "
                        +:+ fmt_precision 100 (BodyBytes resp)
                        +:+ "...): " +:+ Error err) err)
    | Ok vertexResp =>
        match Predictions vertexResp with
        | [] => Ok "No prediction content from Vertex AI"
        | first :: _ =>
            if bool_decide (Content first = "")
            then Ok "Empty prediction content from Vertex AI"
            else Ok (Content first)
        end
    end
  else
    let raw := errors_New ("vertex ai predict api request failed with status "
                            +:+ pretty (StatusCode resp) +:+ ": " +:+ BodyBytes resp) in
    match json_Unmarshal_googleApiError (BodyBytes resp) with
    | Some e =>
        if bool_decide (Error_Message e = "") then Err raw
        else Err (errors_New ("vertex ai predict api request failed with status "
                               +:+ pretty (StatusCode resp) +:+ " (" +:+ Error_Status e
                               +:+ "): " +:+ Error_Message e))
    | None => Err raw
    end.
Proof.
  intros (Hc & Hr & Hd & Hb).
  rewrite callVertexPredictAPI_cases, Hc, Hr. cbv zeta. rewrite Hd, Hb.
  repeat case_match; reflexivity.
Qed.

(** C4. When the endpoint answers 200 and the body decodes: an empty
    predictions list makes the call succeed with the first sentinel, and the
    stage then emits the prompt paired with it without touching the error
    counter; a first prediction with empty content gives the second
    sentinel, again as a success; any other first prediction is returned as
    it is. *)
Theorem empty_predictions_soft_success W fn p resp vertexResp :
  endpoint_responds W fn (Prompt_Prompt p) resp ->
  StatusCode resp = 200 ->
  json_Unmarshal_VertexResponse (BodyBytes resp) = Ok vertexResp ->
  let result := snd (callVertexPredictAPI W fn (Prompt_Prompt p)) in
  (Predictions vertexResp = [] ->
     result = Ok "No prediction content from Vertex AI" /\
     (identityErr fn = None ->
        emitted (fst (ProcessElement W fn p))
          = [{| GeminiResult_Prompt := Prompt_Prompt p;
                GeneratedText := "No prediction content from Vertex AI" |}] /\
        counter_incs (fst (ProcessElement W fn p)) = [] /\
        snd (ProcessElement W fn p) = Some fn)) /\
  (forall first rest,
     Predictions vertexResp = first :: rest -> Content first = "" ->
     result = Ok "Empty prediction content from Vertex AI") /\
  (forall first rest,
     Predictions vertexResp = first :: rest -> Content first <> "" ->
     result = Ok (Content first)).
Proof.
  intros Hresp Hs Hj result. subst result.
  rewrite (callVertexPredictAPI_responds W fn _ resp Hresp), Hs, Hj. cbn [Z.eqb Pos.eqb].
  split; [|split].
  - intros Hnil. rewrite Hnil. split; [reflexivity|]. intros Hid.
    pose proof (callVertexPredictAPI_responds W fn _ resp Hresp) as Hres.
    rewrite Hs, Hj, Hnil in Hres. cbn [Z.eqb Pos.eqb] in Hres.
    pose proof (callVertexPredictAPI_trace W fn (Prompt_Prompt p)) as Htr.
    rewrite ProcessElement_emitted, Hid, Hres. split; [reflexivity|].
    unfold ProcessElement. rewrite Hid.
    destruct (callVertexPredictAPI W fn (Prompt_Prompt p)) as [t r].
    cbn [snd] in Hres. subst r. destruct Htr as (_ & Hinc & _).
    cbn [fst snd]. by rewrite counter_incs_app, Hinc.
  - intros first rest -> Hempty. by rewrite bool_decide_eq_true_2.
  - intros first rest -> Hcontent. by rewrite bool_decide_eq_false_2.
Qed.

(** C5. When the endpoint answers with a status other than 200, the call
    fails.  If the body decodes as an error envelope with a message that is
    not empty, the error text contains that message; if it does not decode,
    or the message is empty, the error text contains the status code in
    decimal and the body as received. *)
Theorem non_200_surfaces_error W fn prompt resp :
  endpoint_responds W fn prompt resp ->
  StatusCode resp <> 200 ->
  exists err,
    snd (callVertexPredictAPI W fn prompt) = Err err /\
    (forall e, json_Unmarshal_googleApiError (BodyBytes resp) = Some e ->
               Error_Message e <> "" ->
               Contains (Error err) (Error_Message e) = true) /\
    ((json_Unmarshal_googleApiError (BodyBytes resp) = None \/
      exists e, json_Unmarshal_googleApiError (BodyBytes resp) = Some e /\
                Error_Message e = "") ->
     Contains (Error err) (pretty (StatusCode resp)) = true /\
     Contains (Error err) (BodyBytes resp) = true).
Proof.
  intros Hresp Hs.
  rewrite (callVertexPredictAPI_responds W fn _ resp Hresp).
  rewrite (proj2 (Z.eqb_neq _ _) Hs). cbv zeta.
  set (pre := "vertex ai predict api request failed with status ").
  assert (forall code body, Contains (pre +:+ code +:+ ": " +:+ body) code = true
                         /\ Contains (pre +:+ code +:+ ": " +:+ body) body = true) as Hraw.
  { intros code body. split; [apply Contains_append|].
    rewrite <- (append_assoc code), <- (append_assoc pre). apply Contains_suffix. }
  destruct (json_Unmarshal_googleApiError (BodyBytes resp)) as [e|].
  - destruct (decide (Error_Message e = "")) as [Hm|Hm].
    + rewrite (bool_decide_eq_true_2 _ Hm). eexists. split; [reflexivity|].
      split; [intros ? [= <-]; done|]. intros _. apply Hraw.
    + rewrite (bool_decide_eq_false_2 _ Hm). eexists. split; [reflexivity|].
      split.
      * intros ? [= <-] _. cbn [Error].
        rewrite <- (append_assoc (Error_Status e)), <- (append_assoc " ("),
          <- (append_assoc (pretty (StatusCode resp))), <- (append_assoc pre).
        apply Contains_suffix.
      * intros [[=]|(e' & [= <-] & Hm')]. done.
  - eexists. split; [reflexivity|]. split; [done|]. intros _. apply Hraw.
Qed.

(** *** The request on the wire *)

(** C9. The call hands its client at most one request, whatever happens.
    Once the client is obtained and the request builds, it hands it exactly
    one: a POST to the URL made of region, project and model, with the one
    header Content-Type: application/json, and a body with the two keys
    instances and parameters, where instances is the one-element list
    holding the prompt and parameters has temperature 0.8 and topK 3 and no
    maxOutputTokens key. *)
Theorem predict_sends_one_post W fn prompt :
  let t := fst (callVertexPredictAPI W fn prompt) in
  (length (requests t) <= 1)%nat /\
  (google_DefaultClient W cloud_platform_scope = None ->
   http_NewRequest_err "POST" (vertexPredictURL fn) = None ->
   exists req doc params,
     requests t = [(Client_Google cloud_platform_scope, req)] /\
     Method req = "POST" /\
     URL req = "https://" +:+ Region fn +:+ "-aiplatform.googleapis.com/v1/projects/"
               +:+ ProjectID fn +:+ "/locations/" +:+ Region fn
               +:+ "/publishers/google/models/" +:+ ModelName fn +:+ ":predict" /\
     Header req = [("Content-Type", "application/json")] /\
     Body req = Some doc /\
     json_keys doc = ["instances"; "parameters"] /\
     json_field "instances" doc = Some (JArray [JObject [("prompt", JString prompt)]]) /\
     json_field "parameters" doc = Some params /\
     json_keys params = ["temperature"; "topK"] /\
     json_field "temperature" params = Some (JFloat 0.8%float) /\
     json_field "topK" params = Some (JInt 3) /\
     json_field "maxOutputTokens" params = None).
Proof.
  intros t. subst t.
  pose proof (callVertexPredictAPI_trace W fn prompt) as Htr.
  destruct (callVertexPredictAPI W fn prompt) as [t r].
  destruct Htr as (_ & _ & _ & Hone & Hsent & _). cbn [fst]. split.
  - destruct Hone as [-> | ->]; cbn; lia.
  - intros Hc Hr. rewrite (Hsent Hc Hr).
    exists (predict_request fn prompt), (request_document prompt),
      (JObject [("temperature", JFloat 0.8%float); ("topK", JInt 3)]).
    repeat split.
Qed.

(** *** Setup *)

Lemma getMetadataServiceAccountEmail_cases W :
  getMetadataServiceAccountEmail W =
  match http_NewRequest_err "GET" (URL metadata_request) with
  | Some e => ([], Err (fmt_Errorf_w "failed to create metadata request: " e))
  | None =>
  let sent := [EvHTTP (Client_Timeout metadataTimeout) metadata_request] in
  match http_Do W (Client_Timeout metadataTimeout) metadata_request with
  | Err e =>
      (sent, Err (fmt_Errorf_w "failed to query metadata server (likely not running on GCP): " e))
  | Ok resp =>
      if StatusCode resp =? 200 then
        match BodyErr resp with
        | Some e => (sent, Err (fmt_Errorf_w "failed to read metadata response body: " e))
        | None => (sent, Ok (strings_TrimSpace (BodyBytes resp)))
        end
      else (sent, Err (errors_New ("metadata server request failed with status "
                                    +:+ pretty (StatusCode resp) +:+ ": "
                                    +:+ BodyBytes resp)))
  end end.
Proof.
  unfold getMetadataServiceAccountEmail, client_Do, io_ReadAll, http_NewRequest,
    event, lift, orWrap, bind, ret, fail, http_StatusOK.
  change (URL metadata_request)
    with (metadataHost +:+ "/computeMetadata/v1/instance/service-accounts/default/email").
  destruct (http_NewRequest_err "GET" _); [reflexivity|].
  change (Header_Set _ _ _) with metadata_request.
  destruct (http_Do W _ _) as [resp|e]; [|reflexivity].
  cbn [fst snd app]. destruct (StatusCode resp =? 200); cbn [negb]; [|reflexivity].
  destruct (BodyErr resp); reflexivity.
Qed.




End Properties.

(** ** The properties at sample inputs *)

(** The end-to-end scenario: prompts "A", "B", "C", of which "B" fails with
    "boom".  The records for "A" and "C" come out, the error counter is
    incremented once, and the one log line carries the error. *)
Example scenario_A_B_C :
  let calls := [(scenario_world, prompt_A); (scenario_world, prompt_B);
                (scenario_world, prompt_C)] in
  let t := concat (fst (@run sample_runtime sample_worker calls)) in
  emitted t = [{| GeminiResult_Prompt := "A"; GeneratedText := "a" |};
               {| GeminiResult_Prompt := "C"; GeneratedText := "c" |}] /\
  counter_incs t = [(ErrorCounter sample_worker, 1)] /\
  logs t = [(Errorf, predict_error_format,
             [AStr (workerIdentity sample_worker); AStr "B"; AInt 1;
              AErr (fmt_Errorf_w "failed to send request to vertex ai predict api: "
                                 (errors_New "boom"))])] /\
  Contains (Error (fmt_Errorf_w "failed to send request to vertex ai predict api: "
                                (errors_New "boom"))) "boom" = true.
Proof. vm_compute. repeat split. Qed.

(** Twenty-two failures for want of credentials leave twenty-one lines. *)
Lemma same_message_logged_min_n_21_witness :
  let calls := replicate 22 (no_credentials_world, prompt_A) in
  errorCounts sample_worker = Some ∅ /\
  Forall (fun c => @fails_with sample_runtime sample_worker no_credentials_message c = true)
         calls /\
  exists ts fn',
    @run sample_runtime sample_worker calls = (ts, Some fn') /\
    length (logs (concat ts)) = 21%nat.
Proof.
  assert (Forall (fun c => @fails_with sample_runtime sample_worker
                             no_credentials_message c = true)
                 (replicate 22 (no_credentials_world, prompt_A))) as Hall
    by (apply Forall_replicate; vm_compute; reflexivity).
  split; [reflexivity|]. split; [exact Hall|].
  destruct (@same_message_logged_min_n_21 sample_runtime sample_worker ∅
              no_credentials_message _ eq_refl eq_refl Hall)
    as (ts & fn' & Hrun & _ & Hlen & _).
  exists ts, fn'. split; [exact Hrun|]. rewrite Hlen. reflexivity.
Defined.

Lemma identity_failed_only_logs_witness :
  let calls := [(scenario_world, prompt_A); (scenario_world, prompt_B)] in
  exists ierr ts,
    identityErr failed_worker = Some ierr /\
    @run sample_runtime failed_worker calls = (ts, Some failed_worker) /\
    Forall (fun t => emitted t = [] /\ counter_incs t = [] /\ requests t = [] /\
                     forallb (fun ev => negb (is_predict_event ev)) t = true /\
                     length (logs t) = 1%nat) ts.
Proof.
  eexists.
  destruct (@identity_failed_only_logs sample_runtime failed_worker _
              [(scenario_world, prompt_A); (scenario_world, prompt_B)] eq_refl)
    as (ts & Hrun & _ & Hall).
  exists ts. split; [reflexivity|]. split; [exact Hrun|exact Hall].
Defined.

Lemma prompt_round_trip_witness :
  identityErr sample_worker = None /\
  snd (@callVertexPredictAPI sample_runtime scenario_world sample_worker "A") = Ok "a" /\
  emitted (fst (@ProcessElement sample_runtime scenario_world sample_worker prompt_A))
    = [{| GeminiResult_Prompt := "A"; GeneratedText := "a" |}].
Proof.
  split; [reflexivity|]. split; [reflexivity|].
  exact (proj1 (proj1 (@prompt_round_trip sample_runtime scenario_world sample_worker
                         prompt_A _)
                  "a" eq_refl eq_refl)).
Defined.

Lemma empty_predictions_soft_success_witness :
  let W := gce_world (fun _ => respond 200 body_no_predictions) in
  let resp := {| StatusCode := 200; BodyBytes := body_no_predictions; BodyErr := None |} in
  @endpoint_responds sample_runtime W sample_worker "A" resp /\
  snd (@callVertexPredictAPI sample_runtime W sample_worker "A")
    = Ok "No prediction content from Vertex AI".
Proof.
  assert (@endpoint_responds sample_runtime
            (gce_world (fun _ => respond 200 body_no_predictions)) sample_worker "A"
            {| StatusCode := 200; BodyBytes := body_no_predictions; BodyErr := None |})
    as Hresp by (repeat split).
  split; [exact Hresp|].
  exact (proj1 (proj1 (@empty_predictions_soft_success sample_runtime _ sample_worker
                         prompt_A _ {| Predictions := [] |} Hresp eq_refl eq_refl)
                  eq_refl)).
Defined.

Lemma non_200_surfaces_error_witness :
  let W := gce_world (fun _ => respond 429 body_quota) in
  let resp := {| StatusCode := 429; BodyBytes := body_quota; BodyErr := None |} in
  @endpoint_responds sample_runtime W sample_worker "A" resp /\
  exists err,
    snd (@callVertexPredictAPI sample_runtime W sample_worker "A") = Err err /\
    Contains (Error err) "quota exceeded" = true.
Proof.
  assert (@endpoint_responds sample_runtime
            (gce_world (fun _ => respond 429 body_quota)) sample_worker "A"
            {| StatusCode := 429; BodyBytes := body_quota; BodyErr := None |})
    as Hresp by (repeat split).
  split; [exact Hresp|].
  destruct (@non_200_surfaces_error sample_runtime _ sample_worker "A" _ Hresp)
    as (err & Herr & Hmsg & _); [discriminate|].
  exists err. split; [exact Herr|].
  apply (Hmsg {| Error_Code := 429; Error_Message := "quota exceeded";
                 Error_Status := "RESOURCE_EXHAUSTED" |}); [reflexivity|discriminate].
Defined.

Lemma distinct_messages_independent_witness :
  let calls := replicate 25 (no_credentials_world, prompt_A) in
  errorCounts sample_worker = Some ∅ /\
  exists ts fn' err,
    @run sample_runtime sample_worker calls = (ts, Some fn') /\
    logs (fst (@ProcessElement sample_runtime scenario_world fn' prompt_B))
      = [(Errorf, predict_error_format,
          [AStr (workerIdentity sample_worker); AStr "B"; AInt 1; AErr err])].
Proof.
  split; [reflexivity|].
  destruct (@distinct_messages_independent sample_runtime sample_worker ∅
              (replicate 25 (no_credentials_world, prompt_A)) eq_refl)
    as (ts & fn' & Hrun & _ & Hother).
  destruct (Hother no_credentials_message
              "failed to send request to vertex ai predict api: boom"
              (scenario_world, prompt_B)) as (err & _ & Hlog).
  - discriminate.
  - apply Forall_replicate. vm_compute. reflexivity.
  - vm_compute. reflexivity.
  - reflexivity.
  - exists ts, fn', err. split; [exact Hrun|exact Hlog].
Defined.

(** C8 as stated fails.  The 21st failure for want of credentials stores 21
    for the message, and the 22nd failure with the same message leaves 21
    there: the stored count has stopped. *)
Lemma stored_count_stops_at_21 :
  let c := (no_credentials_world, prompt_A) in
  @failure_message sample_runtime sample_worker c = Some no_credentials_message /\
  (fun fn => count_of fn no_credentials_message)
    <$> snd (@run sample_runtime sample_worker (replicate 21 c)) = Some 21 /\
  (fun fn => count_of fn no_credentials_message)
    <$> snd (@run sample_runtime sample_worker (replicate 22 c)) = Some 21.
Proof. vm_compute. repeat split. Qed.

Lemma stored_count_saturates_witness :
  errorCounts sample_worker = Some ∅ /\
  exists t fn',
    @ProcessElement sample_runtime no_credentials_world sample_worker prompt_A
      = (t, Some fn') /\
    count_of fn' no_credentials_message = 1.
Proof.
  split; [reflexivity|].
  destruct (@stored_count_saturates sample_runtime no_credentials_world sample_worker ∅
              prompt_A eq_refl) as (t & fn' & Hrun & _ & Hfail).
  exists t, fn'. split; [exact Hrun|].
  destruct (Hfail no_credentials_message eq_refl) as (_ & Hstep & _).
  rewrite Hstep; [reflexivity|]. vm_compute. discriminate.
Defined.

Lemma predict_sends_one_post_witness :
  exists req,
    requests (fst (@callVertexPredictAPI sample_runtime scenario_world sample_worker "A"))
      = [(Client_Google cloud_platform_scope, req)] /\
    URL req = "https://us-central1-aiplatform.googleapis.com/v1/projects/sandboxportal/locations/us-central1/publishers/google/models/gemini-pro:predict".
Proof.
  destruct (proj2 (@predict_sends_one_post sample_runtime scenario_world sample_worker "A")
              eq_refl eq_refl)
    as (req & doc & params & Hreq & _ & Hurl & _).
  exists req. split; [exact Hreq|]. rewrite Hurl. reflexivity.
Defined.

Lemma ProcessElement_frame_witness :
  errorCounts sample_worker = Some ∅ /\
  exists t fn',
    @ProcessElement sample_runtime no_credentials_world sample_worker prompt_A
      = (t, Some fn') /\
    workerIdentity fn' = "worker@sandboxportal.iam.gserviceaccount.com" /\
    identityErr fn' = None.
Proof.
  split; [reflexivity|].
  destruct (@ProcessElement_frame sample_runtime no_credentials_world sample_worker ∅
              prompt_A eq_refl)
    as (t & fn' & Hrun & _ & _ & _ & _ & Hid & Herr & _).
  exists t, fn'. split; [exact Hrun|]. rewrite Hid, Herr. split; reflexivity.
Defined.

(** * Further properties *)

Section Runs_on_ready_workers.
Context `{GoRuntime}.

Lemma step_ready_ProcessElement fn mp c :
  ProcessElement (fst c) (set_errorCounts fn (Some mp)) (snd c)
  = (fst (step_ready fn mp c), Some (set_errorCounts fn (Some (snd (step_ready fn mp c))))).
Proof.
  rewrite ProcessElement_ready. unfold step_ready.
  destruct (identityErr fn); [reflexivity|].
  by destruct (callVertexPredictAPI _ _ _) as [t [result|err]].
Qed.

Lemma run_run_ready fn calls :
  forall mp,
    run (set_errorCounts fn (Some mp)) calls
    = (fst (run_ready fn mp calls),
       Some (set_errorCounts fn (Some (snd (run_ready fn mp calls))))).
Proof.
  induction calls as [|c calls IH]; intros mp; [reflexivity|].
  cbn [run run_ready]. rewrite step_ready_ProcessElement.
  destruct (step_ready fn mp c) as [t mp1]. cbn [fst snd]. rewrite IH.
  by destruct (run_ready fn mp1 calls).
Qed.

Lemma run_of_ready fn mp calls :
  errorCounts fn = Some mp ->
  run fn calls = (fst (run_ready fn mp calls),
                  Some (set_errorCounts fn (Some (snd (run_ready fn mp calls))))).
Proof.
  intros Hmp. rewrite <- run_run_ready. by rewrite <- Hmp, set_errorCounts_id.
Qed.

Lemma run_ready_length fn calls :
  forall mp, length (fst (run_ready fn mp calls)) = length calls.
Proof.
  induction calls as [|c calls IH]; intros mp; [reflexivity|].
  cbn [run_ready]. destruct (step_ready fn mp c) as [t mp1].
  specialize (IH mp1). destruct (run_ready fn mp1 calls). cbn in *. by rewrite IH.
Qed.

Lemma run_ready_cons fn mp c calls :
  run_ready fn mp (c :: calls)
  = (fst (step_ready fn mp c) :: fst (run_ready fn (snd (step_ready fn mp c)) calls),
     snd (run_ready fn (snd (step_ready fn mp c)) calls)).
Proof.
  cbn [run_ready]. destruct (step_ready fn mp c) as [t mp1]. cbn [fst snd].
  by destruct (run_ready fn mp1 calls).
Qed.

(** X1. A worker that was set up processes any sequence of records without
    panicking and leaves one trace per record; at the end its project,
    region, model, counter, identity and identity error are what they were,
    it still has a map, and Teardown logs what it would have logged before
    the run. *)
Theorem run_never_panics_after_Setup fn mp calls :
  errorCounts fn = Some mp ->
  exists ts fn' mp',
    run fn calls = (ts, Some fn') /\
    length ts = length calls /\
    errorCounts fn' = Some mp' /\
    ProjectID fn' = ProjectID fn /\
    Region fn' = Region fn /\
    ModelName fn' = ModelName fn /\
    ErrorCounter fn' = ErrorCounter fn /\
    workerIdentity fn' = workerIdentity fn /\
    identityErr fn' = identityErr fn /\
    Teardown fn' = Teardown fn.
Proof.
  intros Hmp. rewrite (run_of_ready fn mp calls Hmp).
  do 3 eexists. split; [reflexivity|]. split; [apply run_ready_length|].
  repeat split.
Qed.

(** X2. On a worker with an identity every record is accounted for exactly
    once: its call either emits one record and leaves the error counter
    alone, or emits nothing and adds one to the worker's error counter.  So
    over a run the records emitted and the counter increments add up to the
    records delivered. *)
Theorem every_record_emitted_or_counted fn mp calls :
  errorCounts fn = Some mp ->
  identityErr fn = None ->
  exists ts fn',
    run fn calls = (ts, Some fn') /\
    Forall (fun t => (length (emitted t) = 1%nat /\ counter_incs t = []) \/
                     (emitted t = [] /\ counter_incs t = [(ErrorCounter fn, 1)])) ts /\
    (length (emitted (concat ts)) + length (counter_incs (concat ts)))%nat = length calls.
Proof.
  intros Hmp Hid. rewrite (run_of_ready fn mp calls Hmp).
  do 2 eexists. split; [reflexivity|]. clear Hmp. revert mp.
  assert (forall mp c,
    let t := fst (step_ready fn mp c) in
    (length (emitted t) = 1%nat /\ counter_incs t = []) \/
    (emitted t = [] /\ counter_incs t = [(ErrorCounter fn, 1)])) as Hstep.
  { intros mp c. unfold step_ready. rewrite Hid.
    pose proof (callVertexPredictAPI_trace (fst c) fn (Prompt_Prompt (snd c))) as Htr.
    destruct (callVertexPredictAPI _ _ _) as [t0 [result|err]];
      destruct Htr as (Hem & Hinc & _); cbn [fst].
    - left. by rewrite emitted_app, counter_incs_app, Hem, Hinc.
    - right. rewrite emitted_app, counter_incs_app, Hem, Hinc.
      unfold failure_events. by repeat case_match. }
  induction calls as [|c calls IH]; intros mp; [by split|].
  rewrite run_ready_cons. cbn [fst snd concat length].
  destruct (IH (snd (step_ready fn mp c))) as (Hall & Hsum).
  split; [constructor; [apply Hstep|exact Hall]|].
  rewrite emitted_app, counter_incs_app, !length_app.
  destruct (Hstep mp c) as [(-> & ->)|(-> & ->)]; cbn [length]; lia.
Qed.

Lemma emitted_step_ready fn mp c :
  emitted (fst (step_ready fn mp c)) = option_list (prediction fn c).
Proof.
  unfold step_ready, prediction. destruct (identityErr fn); [reflexivity|].
  pose proof (callVertexPredictAPI_trace (fst c) fn (Prompt_Prompt (snd c))) as Htr.
  destruct (callVertexPredictAPI _ _ _) as [t0 [result|err]];
    destruct Htr as (Hem & _); cbn [fst snd]; rewrite emitted_app, Hem; [reflexivity|].
  unfold failure_events. by repeat case_match.
Qed.

(** X3. The output of a run is, in the order of arrival, the record
    [{prompt, text}] of every call whose prediction succeeds, and nothing
    else: a failure drops its own record only, and what was processed before
    has no influence on what a call emits. *)
Theorem run_emits_the_successes_in_order fn mp calls :
  errorCounts fn = Some mp ->
  exists ts fn',
    run fn calls = (ts, Some fn') /\
    emitted (concat ts) = omap (prediction fn) calls.
Proof.
  intros Hmp. rewrite (run_of_ready fn mp calls Hmp).
  do 2 eexists. split; [reflexivity|]. clear Hmp. revert mp.
  induction calls as [|c calls IH]; intros mp; [reflexivity|].
  rewrite run_ready_cons. cbn [fst snd concat]. rewrite emitted_app, IH.
  rewrite emitted_step_ready. cbn. by destruct (prediction fn c).
Qed.

(** *** The stored counts as a whole *)

Lemma record_failure_bounded mp m :
  map_Forall (fun _ v => 1 <= v <= 21) mp ->
  map_Forall (fun _ v => 1 <= v <= 21) (record_failure mp m).
Proof.
  intros Hall. unfold record_failure, maxRedundantErrors.
  destruct (Z.leb_spec (default 0 (mp !! m)) 20) as [Hle|]; [|exact Hall].
  apply map_Forall_insert_2; [|exact Hall].
  destruct (mp !! m) as [v|] eqn:Hv; cbn in *; [|lia].
  pose proof (map_Forall_lookup_1 _ _ _ _ Hall Hv). cbn in *. lia.
Qed.

Lemma run_ready_bounded fn calls :
  forall mp,
    map_Forall (fun _ v => 1 <= v <= 21) mp ->
    map_Forall (fun _ v => 1 <= v <= 21) (snd (run_ready fn mp calls)).
Proof.
  induction calls as [|c calls IH]; intros mp Hall; [exact Hall|].
  rewrite run_ready_cons. cbn [snd]. apply IH.
  unfold step_ready. destruct (identityErr fn); [exact Hall|].
  destruct (callVertexPredictAPI _ _ _) as [t0 [result|err]]; [exact Hall|].
  by apply record_failure_bounded.
Qed.

(** X4. The stored counts stay between 1 and 21: if that holds of every
    entry of the map before a run (as it does of the empty map Setup
    installs), it holds of every entry after it. *)
Theorem stored_counts_between_1_and_21 fn mp calls :
  errorCounts fn = Some mp ->
  map_Forall (fun _ v => 1 <= v <= maxRedundantErrors + 1) mp ->
  exists ts fn' mp',
    run fn calls = (ts, Some fn') /\
    errorCounts fn' = Some mp' /\
    map_Forall (fun _ v => 1 <= v <= maxRedundantErrors + 1) mp'.
Proof.
  intros Hmp Hall. rewrite (run_of_ready fn mp calls Hmp).
  do 3 eexists. split; [reflexivity|]. split; [reflexivity|].
  by apply run_ready_bounded.
Qed.

Lemma total_count_insert_None mp k v :
  mp !! k = None -> total_count (<[k := v]> mp) = v + total_count mp.
Proof.
  intros Hk. unfold total_count.
  rewrite map_fold_insert_L; [reflexivity| |exact Hk]. intros. lia.
Qed.

Lemma total_count_insert mp k v :
  total_count (<[k := v]> mp) = total_count mp - default 0 (mp !! k) + v.
Proof.
  destruct (mp !! k) as [x|] eqn:Hk; cbn [default].
  - assert (total_count mp = x + total_count (delete k mp)) as ->.
    { unfold total_count.
      rewrite (map_fold_delete_L (fun _ v acc => v + acc) 0 k x mp); [reflexivity| |exact Hk].
      intros. lia. }
    rewrite <- insert_delete_eq.
    rewrite total_count_insert_None by apply lookup_delete_eq. unfold id. lia.
  - rewrite total_count_insert_None by done. lia.
Qed.

Lemma total_count_bounded (mp : gmap string Z) :
  map_Forall (fun _ v => 1 <= v <= 21) mp ->
  total_count mp <= 21 * Z.of_nat (size mp).
Proof.
  induction mp as [|k v mp Hk IH] using map_ind.
  - intros _. unfold total_count. rewrite map_fold_empty, map_size_empty. lia.
  - intros [Hv Hall]%map_Forall_insert; [|exact Hk].
    rewrite total_count_insert_None, map_size_insert_None by done.
    specialize (IH Hall). lia.
Qed.

Lemma predict_logs_not_failure_lines W fn prompt :
  failure_lines (fst (callVertexPredictAPI W fn prompt)) = [].
Proof.
  rewrite callVertexPredictAPI_cases. cbv zeta.
  repeat case_match; reflexivity.
Qed.

Lemma failure_lines_app t1 t2 : failure_lines (t1 ++ t2) = failure_lines t1 ++ failure_lines t2.
Proof. unfold failure_lines. by rewrite logs_app, List.filter_app. Qed.

Lemma failure_lines_step fn mp c :
  Z.of_nat (length (failure_lines (fst (step_ready fn mp c))))
  = total_count (snd (step_ready fn mp c)) - total_count mp.
Proof.
  unfold step_ready. destruct (identityErr fn).
  { cbn [fst snd]. change (failure_lines _) with (@nil (Severity * string * list Arg)).
    cbn. lia. }
  pose proof (predict_logs_not_failure_lines (fst c) fn (Prompt_Prompt (snd c))) as Hnone.
  destruct (callVertexPredictAPI _ _ _) as [t0 [result|err]]; cbn [fst snd] in *;
    rewrite failure_lines_app, Hnone, app_nil_l.
  { change (failure_lines _) with (@nil (Severity * string * list Arg)). cbn. lia. }
  unfold failure_events, record_failure, maxRedundantErrors.
  fold (default 0 (mp !! Error err)).
  set (k := default 0 (mp !! Error err)).
  destruct (Z.ltb_spec k 20).
  { rewrite (proj2 (Z.leb_le k 20)) by lia. rewrite total_count_insert. fold k.
    change (failure_lines _) with [(Errorf, predict_error_format,
      [AStr (workerIdentity fn); AStr (Prompt_Prompt (snd c)); AInt (k + 1); AErr err])].
    cbn [length]. lia. }
  destruct (Z.eqb_spec k 20).
  { rewrite (proj2 (Z.leb_le k 20)) by lia. rewrite total_count_insert. fold k.
    change (failure_lines _) with [(Warnf, error_cap_format,
      [AInt 20; AStr (workerIdentity fn); AStr (Error err)])].
    cbn [length]. lia. }
  rewrite (proj2 (Z.leb_gt k 20)) by lia.
  change (failure_lines _) with (@nil (Severity * string * list Arg)). cbn. lia.
Qed.

Lemma failure_lines_run_ready fn calls :
  forall mp,
    Z.of_nat (length (failure_lines (concat (fst (run_ready fn mp calls)))))
    = total_count (snd (run_ready fn mp calls)) - total_count mp.
Proof.
  induction calls as [|c calls IH]; intros mp; [cbn; lia|].
  rewrite run_ready_cons. cbn [fst snd concat].
  rewrite failure_lines_app, length_app, Nat2Z.inj_add, IH, failure_lines_step. lia.
Qed.

(** X5. The log volume of failures is bounded by the map.  Over a run the
    number of error and cap-reached lines written equals the growth of the
    sum of the stored counts; on a worker fresh from Setup it is therefore
    the sum of the counts, and at most 21 times the number of distinct
    messages. *)
Theorem failure_lines_equal_stored_counts fn mp calls :
  errorCounts fn = Some mp ->
  exists ts fn' mp',
    run fn calls = (ts, Some fn') /\
    errorCounts fn' = Some mp' /\
    Z.of_nat (length (failure_lines (concat ts))) = total_count mp' - total_count mp /\
    (mp = ∅ ->
     Z.of_nat (length (failure_lines (concat ts))) = total_count mp' /\
     Z.of_nat (length (failure_lines (concat ts)))
       <= (maxRedundantErrors + 1) * Z.of_nat (size mp')).
Proof.
  intros Hmp. rewrite (run_of_ready fn mp calls Hmp).
  do 3 eexists. split; [reflexivity|]. split; [reflexivity|].
  split; [apply failure_lines_run_ready|].
  intros ->. rewrite failure_lines_run_ready.
  assert (total_count (∅ : gmap string Z) = 0) as -> by apply map_fold_empty.
  split; [lia|]. rewrite Z.sub_0_r.
  apply total_count_bounded, run_ready_bounded, map_Forall_empty.
Qed.

End Runs_on_ready_workers.

Section Prediction_call.
Context `{GoRuntime}.

Lemma callVertexPredictAPI_Ok_nonempty W fn prompt t s :
  callVertexPredictAPI W fn prompt = (t, Ok s) -> s <> "".
Proof.
  rewrite callVertexPredictAPI_cases. cbv zeta.
  repeat case_match; intros; simplify_eq; try done.
  by eapply bool_decide_eq_false_1.
Qed.

(** X6. The text of a prediction that succeeds is never empty (an empty
    first prediction is replaced by a sentinel), so every record the stage
    emits carries its prompt and a text that is not empty. *)
Theorem generated_text_never_empty W fn p :
  (forall t s, callVertexPredictAPI W fn (Prompt_Prompt p) = (t, Ok s) -> s <> "") /\
  Forall (fun r => GeminiResult_Prompt r = Prompt_Prompt p /\ GeneratedText r <> "")
         (emitted (fst (ProcessElement W fn p))).
Proof.
  split; [intros t s; apply callVertexPredictAPI_Ok_nonempty|].
  rewrite ProcessElement_emitted. destruct (identityErr fn); [constructor|].
  destruct (callVertexPredictAPI W fn (Prompt_Prompt p)) as [t [s|err]] eqn:Hcall;
    cbn [snd]; [|constructor].
  repeat constructor. cbn. by eapply callVertexPredictAPI_Ok_nonempty.
Qed.

Lemma Contains_Errorf_w prefix cause :
  Contains (Error (fmt_Errorf_w prefix cause)) (Error cause) = true.
Proof. apply Contains_suffix. Qed.

(** X7. When the client for the prediction cannot be obtained, or the
    request cannot be built, the call does nothing but the credential
    lookup: no request goes out, nothing is logged, and the error returned
    wraps the cause, whose text is part of its message. *)
Theorem no_request_without_client W fn prompt cause :
  google_DefaultClient W cloud_platform_scope = Some cause \/
  (google_DefaultClient W cloud_platform_scope = None /\
   http_NewRequest_err "POST" (vertexPredictURL fn) = Some cause) ->
  exists err,
    callVertexPredictAPI W fn prompt = ([EvDefaultClient cloud_platform_scope], Err err) /\
    requests (fst (callVertexPredictAPI W fn prompt)) = [] /\
    Unwrap err = Some cause /\
    Contains (Error err) (Error cause) = true.
Proof.
  rewrite callVertexPredictAPI_cases.
  intros [-> | [-> ->]]; eexists; (split; [reflexivity|]);
    repeat split; apply Contains_Errorf_w.
Qed.

(** X8. Every error of the prediction call is of one of two kinds.  Either
    it wraps the error that caused it (credentials, request construction,
    transport, reading the body, decoding a 200 body), and the cause's text
    is part of its message; or it has no cause and reports a response whose
    status is not 200, with the status code in its message. *)
Theorem prediction_errors_wrap_or_report_status W fn prompt t err :
  callVertexPredictAPI W fn prompt = (t, Err err) ->
  (exists cause, Unwrap err = Some cause /\ Contains (Error err) (Error cause) = true) \/
  (exists resp,
     http_Do W (Client_Google cloud_platform_scope) (predict_request fn prompt) = Ok resp /\
     StatusCode resp <> 200 /\
     Unwrap err = None /\
     Contains (Error err) (pretty (StatusCode resp)) = true).
Proof.
  rewrite callVertexPredictAPI_cases. cbv zeta.
  destruct (google_DefaultClient W cloud_platform_scope) as [e|].
  { intros [= <- <-]. left. eexists. split; [reflexivity|apply Contains_Errorf_w]. }
  destruct (http_NewRequest_err "POST" (vertexPredictURL fn)) as [e|].
  { intros [= <- <-]. left. eexists. split; [reflexivity|apply Contains_Errorf_w]. }
  destruct (http_Do W _ _) as [resp|e]; cycle 1.
  { intros [= <- <-]. left. eexists. split; [reflexivity|apply Contains_Errorf_w]. }
  destruct (BodyErr resp) as [e|].
  { intros [= <- <-]. left. eexists. split; [reflexivity|apply Contains_Errorf_w]. }
  destruct (Z.eqb_spec (StatusCode resp) 200) as [Hs|Hs].
  - destruct (json_Unmarshal_VertexResponse (BodyBytes resp)) as [vertexResp|derr].
    { repeat case_match; discriminate. }
    intros [= <- <-]. left. exists derr. split; [reflexivity|]. cbn [Error].
    rewrite <- (append_assoc (fmt_precision 100 (BodyBytes resp))),
      <- (append_assoc "failed to unmarshal vertex response (body: ").
    apply Contains_suffix.
  - intros Herr. right. exists resp. split; [reflexivity|]. split; [exact Hs|].
    repeat case_match; simplify_eq; (split; [reflexivity|]); cbn [Error];
      apply Contains_append.
Qed.

(** X9. A 200 response whose body does not decode is a failure, not a
    success: the error wraps the decoder's error and its message quotes the
    first 100 characters of the body; the stage then emits nothing for the
    record and increments the error counter once. *)
Theorem undecodable_body_is_an_error W fn p resp derr :
  endpoint_responds W fn (Prompt_Prompt p) resp ->
  StatusCode resp = 200 ->
  json_Unmarshal_VertexResponse (BodyBytes resp) = Err derr ->
  exists err,
    snd (callVertexPredictAPI W fn (Prompt_Prompt p)) = Err err /\
    Unwrap err = Some derr /\
    Contains (Error err) (fmt_precision 100 (BodyBytes resp)) = true /\
    Contains (Error err) (Error derr) = true /\
    (identityErr fn = None ->
     emitted (fst (ProcessElement W fn p)) = [] /\
     counter_incs (fst (ProcessElement W fn p)) = [(ErrorCounter fn, 1)]).
Proof.
  intros Hresp Hs Hj.
  pose proof (callVertexPredictAPI_responds W fn _ resp Hresp) as Hres.
  rewrite Hs, Hj in Hres. cbn [Z.eqb Pos.eqb] in Hres.
  eexists. split; [exact Hres|]. split; [reflexivity|]. cbn [Error].
  split; [apply Contains_append|]. split.
  { rewrite <- (append_assoc (fmt_precision 100 (BodyBytes resp))),
      <- (append_assoc "failed to unmarshal vertex response (body: ").
    apply Contains_suffix. }
  intros Hid. rewrite ProcessElement_emitted, Hid, Hres. split; [reflexivity|].
  unfold ProcessElement. rewrite Hid.
  pose proof (callVertexPredictAPI_trace W fn (Prompt_Prompt p)) as Htr.
  destruct (callVertexPredictAPI W fn (Prompt_Prompt p)) as [t r].
  cbn [snd] in Hres. subst r. destruct Htr as (_ & Hinc & _).
  repeat case_match; cbn [fst]; by rewrite counter_incs_app, Hinc.
Qed.

End Prediction_call.

Section Identity.
Context `{GoRuntime}.

Lemma getADCIdentityEmail_cases W :
  getADCIdentityEmail W =
  let lookup := [EvFindDefaultCredentials userinfo_email_scope] in
  match google_FindDefaultCredentials W userinfo_email_scope with
  | Err e => (lookup, Err (fmt_Errorf_w "failed to find default credentials: " e))
  | Ok creds =>
  match TokenSource_Token creds with
  | Err e =>
      (lookup ++ [EvToken], Err (fmt_Errorf_w "failed to get token from token source: " e))
  | Ok token =>
  if Valid token then
    match http_NewRequest_err "GET" (URL (tokeninfo_request (AccessToken token))) with
    | Some e =>
        (lookup ++ [EvToken], Err (fmt_Errorf_w "failed to query tokeninfo endpoint: " e))
    | None =>
    let sent := lookup ++ [EvToken; EvHTTP Client_Default
                                      (tokeninfo_request (AccessToken token))] in
    match http_Do W Client_Default (tokeninfo_request (AccessToken token)) with
    | Err e => (sent, Err (fmt_Errorf_w "failed to query tokeninfo endpoint: " e))
    | Ok resp =>
        if StatusCode resp =? 200 then
          match json_Decode_tokenInfo resp with
          | Err e => (sent, Err (fmt_Errorf_w "failed to decode tokeninfo response: " e))
          | Ok info =>
              if bool_decide (Email info = "") then
                if bool_decide (Error_description info = "") then
                  (sent, Err (errors_New "tokeninfo response did not contain an email address"))
                else
                  (sent, Err (errors_New ("tokeninfo returned an error: "
                                          +:+ Error_description info)))
              else (sent, Ok (Email info))
          end
        else (sent, Err (errors_New ("tokeninfo request failed with status "
                                     +:+ pretty (StatusCode resp) +:+ ": "
                                     +:+ BodyBytes resp)))
    end end
  else (lookup ++ [EvToken], Err (errors_New "retrieved token is invalid or expired"))
  end end.
Proof.
  unfold getADCIdentityEmail, FindDefaultCredentials, TokenSource_Token_call, http_Get,
    client_Do, http_NewRequest, event, lift, orWrap, bind, ret, fail, http_StatusOK.
  cbv zeta.
  destruct (google_FindDefaultCredentials W userinfo_email_scope) as [creds|e];
    [|reflexivity].
  destruct (TokenSource_Token creds) as [token|e]; [|reflexivity].
  destruct (Valid token); cbn [negb fst snd app]; [|reflexivity].
  change (URL (tokeninfo_request (AccessToken token)))
    with ("https://www.googleapis.com/oauth2/v3/tokeninfo" +:+ "?access_token="
          +:+ url_QueryEscape (AccessToken token)).
  destruct (http_NewRequest_err "GET" _); [reflexivity|].
  change {| Method := "GET"; URL := _; Header := []; Body := None |}
    with (tokeninfo_request (AccessToken token)).
  destruct (http_Do W Client_Default _) as [resp|e]; [|reflexivity].
  cbn [fst snd app]. destruct (StatusCode resp =? 200); cbn [negb]; [|reflexivity].
  destruct (json_Decode_tokenInfo resp) as [info|e]; [|reflexivity].
  cbn [fst snd app]. destruct (bool_decide (Email info = "")); [|reflexivity].
  by destruct (bool_decide (Error_description info = "")).
Qed.

(** X10. The metadata strategy succeeds exactly when its request builds, the
    server answers 200 and the body is read to the end; the identity is then
    the body with the white space around it removed. *)
Theorem metadata_email_iff W email :
  snd (getMetadataServiceAccountEmail W) = Ok email <->
  http_NewRequest_err "GET" (URL metadata_request) = None /\
  exists resp,
    http_Do W (Client_Timeout metadataTimeout) metadata_request = Ok resp /\
    StatusCode resp = 200 /\
    BodyErr resp = None /\
    email = strings_TrimSpace (BodyBytes resp).
Proof.
  rewrite getMetadataServiceAccountEmail_cases. cbv zeta. split.
  - repeat case_match; cbn [snd]; intros; simplify_eq.
    split; [reflexivity|]. eexists. repeat split; try done. by apply Z.eqb_eq.
  - intros (-> & resp & -> & Hs & -> & ->). by rewrite Hs.
Qed.

(** X11. The metadata strategy logs nothing and sends at most one request:
    once the request builds, exactly one GET for the default service
    account's email, with the header Metadata-Flavor: Google, through a
    client with a two-second timeout.  An answer with another status than
    200 is a failure whose message has the status code and the body. *)
Theorem metadata_single_request W :
  let t := fst (getMetadataServiceAccountEmail W) in
  let req :=
    {| Method := "GET";
       URL := "http://metadata.google.internal/computeMetadata/v1/instance/service-accounts/default/email";
       Header := [("Metadata-Flavor", "Google")];
       Body := None |} in
  logs t = [] /\
  (length (requests t) <= 1)%nat /\
  (http_NewRequest_err "GET" (URL req) = None ->
   requests t = [(Client_Timeout (2 * 1000000000), req)]) /\
  (forall resp,
     http_NewRequest_err "GET" (URL req) = None ->
     http_Do W (Client_Timeout (2 * 1000000000)) req = Ok resp ->
     StatusCode resp <> 200 ->
     exists err,
       snd (getMetadataServiceAccountEmail W) = Err err /\
       Contains (Error err) (pretty (StatusCode resp)) = true /\
       Contains (Error err) (BodyBytes resp) = true).
Proof.
  intros t req. subst t.
  change req with metadata_request. change (2 * 1000000000) with metadataTimeout.
  rewrite getMetadataServiceAccountEmail_cases. cbv zeta.
  split; [by repeat case_match|]. split; [repeat case_match; cbn; lia|]. split.
  - intros ->. by repeat case_match.
  - intros resp -> -> Hs. rewrite (proj2 (Z.eqb_neq _ _) Hs).
    eexists. split; [reflexivity|]. cbn [snd Error].
    split; [apply Contains_append|].
    rewrite <- (append_assoc (pretty (StatusCode resp))),
      <- (append_assoc "metadata server request failed with status ").
    apply Contains_suffix.
Qed.

(** X12. The fallback never sends a request unless it holds a token that is
    valid: the one request it can send is a GET through the default client
    to the tokeninfo endpoint, carrying the escaped access token as the
    access_token query parameter, and it is sent whenever credentials are
    found, a valid token is obtained and the request builds. *)
Theorem tokeninfo_request_needs_valid_token W :
  let t := fst (getADCIdentityEmail W) in
  (requests t = [] \/
   exists creds token,
     google_FindDefaultCredentials W userinfo_email_scope = Ok creds /\
     TokenSource_Token creds = Ok token /\
     Valid token = true /\
     requests t = [(Client_Default, tokeninfo_request (AccessToken token))]) /\
  (forall creds token,
     google_FindDefaultCredentials W userinfo_email_scope = Ok creds ->
     TokenSource_Token creds = Ok token ->
     Valid token = true ->
     http_NewRequest_err "GET" (URL (tokeninfo_request (AccessToken token))) = None ->
     exists req,
       requests t = [(Client_Default, req)] /\
       Method req = "GET" /\
       URL req = "https://www.googleapis.com/oauth2/v3/tokeninfo?access_token="
                 +:+ url_QueryEscape (AccessToken token) /\
       Header req = [] /\ Body req = None).
Proof.
  intros t. subst t. rewrite getADCIdentityEmail_cases. cbv zeta. split.
  - destruct (google_FindDefaultCredentials W userinfo_email_scope) as [creds|e];
      [|by left].
    destruct (TokenSource_Token creds) as [token|e] eqn:Htok; [|by left].
    destruct (Valid token) eqn:Hvalid; [|by left].
    destruct (http_NewRequest_err "GET" _); [by left|].
    right. exists creds, token. repeat split; try done.
    by repeat case_match.
  - intros creds token -> -> -> ->.
    exists (tokeninfo_request (AccessToken token)). split; [by repeat case_match|].
    repeat split.
Qed.

(** X13. The fallback succeeds exactly when credentials are found, a valid
    token is obtained, the tokeninfo endpoint answers 200, the answer
    decodes and names an email that is not empty; that email is the
    identity. *)
Theorem tokeninfo_email_iff W email :
  snd (getADCIdentityEmail W) = Ok email <->
  exists creds token resp info,
    google_FindDefaultCredentials W userinfo_email_scope = Ok creds /\
    TokenSource_Token creds = Ok token /\
    Valid token = true /\
    http_NewRequest_err "GET" (URL (tokeninfo_request (AccessToken token))) = None /\
    http_Do W Client_Default (tokeninfo_request (AccessToken token)) = Ok resp /\
    StatusCode resp = 200 /\
    json_Decode_tokenInfo resp = Ok info /\
    Email info = email /\
    email <> "".
Proof.
  rewrite getADCIdentityEmail_cases. cbv zeta. split.
  - repeat case_match; cbn [snd]; intros; simplify_eq.
    do 4 eexists. repeat split; try done; [by apply Z.eqb_eq|].
    by eapply bool_decide_eq_false_1.
  - intros (creds & token & resp & info & -> & -> & -> & -> & -> & Hs & -> & <- & Hne).
    rewrite Hs. cbn [Z.eqb Pos.eqb]. by rewrite bool_decide_eq_false_2.
Qed.

(** X14. When the tokeninfo endpoint answers 200 but names no email, the
    fallback fails: with the answer's error description in the message when
    there is one, and with a fixed message when there is none.  When it
    answers with another status, the message has the status code and the
    body. *)
Theorem tokeninfo_failures W creds token resp :
  google_FindDefaultCredentials W userinfo_email_scope = Ok creds ->
  TokenSource_Token creds = Ok token ->
  Valid token = true ->
  http_NewRequest_err "GET" (URL (tokeninfo_request (AccessToken token))) = None ->
  http_Do W Client_Default (tokeninfo_request (AccessToken token)) = Ok resp ->
  (forall info,
     StatusCode resp = 200 -> json_Decode_tokenInfo resp = Ok info -> Email info = "" ->
     snd (getADCIdentityEmail W)
     = Err (errors_New (if bool_decide (Error_description info = "")
                        then "tokeninfo response did not contain an email address"
                        else "tokeninfo returned an error: " +:+ Error_description info))) /\
  (StatusCode resp <> 200 ->
   exists err,
     snd (getADCIdentityEmail W) = Err err /\
     Contains (Error err) (pretty (StatusCode resp)) = true /\
     Contains (Error err) (BodyBytes resp) = true).
Proof.
  intros Hc Ht Hv Hr Hd.
  rewrite getADCIdentityEmail_cases, Hc, Ht, Hv, Hr. cbv zeta. rewrite Hd. split.
  - intros info -> -> Hno. cbn [Z.eqb Pos.eqb]. rewrite bool_decide_eq_true_2 by done.
    by case_match.
  - intros Hs. rewrite (proj2 (Z.eqb_neq _ _) Hs).
    eexists. split; [reflexivity|]. cbn [Error]. split; [apply Contains_append|].
    rewrite <- (append_assoc (pretty (StatusCode resp))),
      <- (append_assoc "tokeninfo request failed with status ").
    apply Contains_suffix.
Qed.

(** X15. Setup on any worker, fresh or not, keeps project, region and
    model, installs an empty map and the counter
    vertexai/predict_errors_total, emits nothing, increments nothing and
    does not touch the prediction client.  It never clears an identity
    error: a worker that had one before still has one afterwards. *)
Theorem Setup_frame W fn :
  let t := fst (Setup W fn) in
  let fn' := snd (Setup W fn) in
  ProjectID fn' = ProjectID fn /\
  Region fn' = Region fn /\
  ModelName fn' = ModelName fn /\
  errorCounts fn' = Some ∅ /\
  ErrorCounter fn' = {| Counter_namespace := "vertexai";
                        Counter_name := "predict_errors_total" |} /\
  emitted t = [] /\
  counter_incs t = [] /\
  forallb (fun ev => negb (is_predict_event ev)) t = true /\
  (identityErr fn <> None -> identityErr fn' <> None).
Proof.
  intros t fn'. subst t fn'. unfold Setup.
  rewrite getMetadataServiceAccountEmail_cases, getADCIdentityEmail_cases. cbv zeta.
  repeat case_match; simplify_eq; cbn; repeat split; auto; done.
Qed.

End Identity.

Section Launch.
Context `{GoRuntime}.

Lemma pipelines_run_app t1 t2 :
  Main.pipelines_run (t1 ++ t2) = Main.pipelines_run t1 ++ Main.pipelines_run t2.
Proof. apply omap_app. Qed.

Lemma fatals_app t1 t2 : Main.fatals (t1 ++ t2) = Main.fatals t1 ++ Main.fatals t2.
Proof. apply omap_app. Qed.

Lemma log_lines_app t1 t2 :
  Main.log_lines (t1 ++ t2) = Main.log_lines t1 ++ Main.log_lines t2.
Proof. apply omap_app. Qed.

Lemma effects_app t1 t2 : Main.effects (t1 ++ t2) = Main.effects t1 ++ Main.effects t2.
Proof. apply omap_app. Qed.

Lemma launcher_effects (t : list Event) :
  Main.effects (Main.Effect <$> t) = t /\
  Main.pipelines_run (Main.Effect <$> t) = [] /\
  Main.fatals (Main.Effect <$> t) = [] /\
  Main.log_lines (Main.Effect <$> t) = [].
Proof.
  induction t as [|ev t (IH1 & IH2 & IH3 & IH4)]; [done|].
  cbn. repeat split; [by f_equal|done..].
Qed.

(** X17. With the three required flags a launch hands exactly one pipeline
    to the runner, whatever --staging_location and the credential lookup
    give: it reads and writes in the project, writes to
    project:sandboxdataset.gemini_dataflow_results, passes each row's prompt
    on unchanged, and its DoFn is a fresh worker for project, region and the
    model, which is gemini-pro unless --model_name is given.  main returns
    if the runner reports no error, and otherwise exits with status 1 after
    the one fatal line with the runner's error. *)
Theorem main_runs_one_pipeline host flags :
  Main.flag_project flags <> "" ->
  Main.flag_region flags <> "" ->
  Main.flag_temp_location flags <> "" ->
  exists p,
    Main.pipelines_run (fst (Main.main host flags)) = [p] /\
    Main.ReadPrompts_project p = Main.flag_project flags /\
    Main.WriteResults_project p = Main.flag_project flags /\
    Main.WriteResults_table p
      = Main.flag_project flags +:+ ":sandboxdataset.gemini_dataflow_results" /\
    (forall row, Main.FormatPrompts p row
                 = [{| Prompt_Prompt := Main.PromptFromBQ_Prompt row |}]) /\
    Main.CallVertexAI p
      = NewGenerateTextFn (Main.flag_project flags) (Main.flag_region flags)
          (default "gemini-pro" (Main.flag_model_name flags)) /\
    match Main.beamx_Run host p with
    | None => snd (Main.main host flags) = Main.Returned /\
              Main.fatals (fst (Main.main host flags)) = []
    | Some err =>
        snd (Main.main host flags) = Main.Exited 1 /\
        Main.fatals (fst (Main.main host flags))
          = [("Failed to execute pipeline: %v", [AErr err])]
    end.
Proof.
  intros Hp Hr Ht.
  exists (fst (snd (Main.run (Main.flag_project flags) (Main.flag_region flags)
                      (Main.flag_temp_location flags)
                      (Main.flag_staging_location flags) (Main.modelName flags)))).
  unfold Main.main. rewrite !bool_decide_eq_false_2 by done.
  destruct (getADCIdentityEmail (Main.host_world host)) as [t_adc r].
  cbn [Main.run fst snd].
  set (p := {| Main.ReadPrompts_project := Main.flag_project flags;
               Main.ReadPrompts_query := Main.query;
               Main.FormatPrompts := _; Main.CallVertexAI := _;
               Main.WriteResults_project := _; Main.WriteResults_table := _ |}).
  assert (Main.ReadPrompts_project p = Main.flag_project flags /\
    Main.WriteResults_project p = Main.flag_project flags /\
    Main.WriteResults_table p
      = Main.flag_project flags +:+ ":sandboxdataset.gemini_dataflow_results" /\
    (forall row, Main.FormatPrompts p row
                 = [{| Prompt_Prompt := Main.PromptFromBQ_Prompt row |}]) /\
    Main.CallVertexAI p
      = NewGenerateTextFn (Main.flag_project flags) (Main.flag_region flags)
          (default "gemini-pro" (Main.flag_model_name flags))) as Hpipe
    by (repeat split).
  clearbody p.
  destruct r as [identityEmail|err];
    destruct (Main.beamx_Run host p) as [rerr|]; cbn [fst snd].
  all: (split; [|repeat (split; [apply Hpipe|]); split; [reflexivity|]]).
  all: rewrite ?pipelines_run_app, ?fatals_app.
  all: rewrite ?(proj1 (proj2 (launcher_effects _))), ?(proj1 (proj2 (proj2 (launcher_effects _)))).
  all: by case_match.
Qed.

(** X16. A launch without --project, --region or --temp_location stops at
    once: the only thing main does is to log the fatal line that names the
    first of the three that is missing, in that order, and exit with status
    1; no credentials are looked up and no pipeline is built or run. *)
Theorem main_requires_three_flags host flags :
  Main.flag_project flags = "" \/ Main.flag_region flags = "" \/
  Main.flag_temp_location flags = "" ->
  exists name,
    Main.main host flags
    = ([Main.Fatal ("Missing required flag --" +:+ name) []], Main.Exited 1) /\
    name = (if bool_decide (Main.flag_project flags = "") then "project"
            else if bool_decide (Main.flag_region flags = "") then "region"
            else "temp_location") /\
    Main.effects (fst (Main.main host flags)) = [] /\
    Main.pipelines_run (fst (Main.main host flags)) = [].
Proof.
  intros Hmissing. unfold Main.main.
  destruct (decide (Main.flag_project flags = "")) as [Hp|Hp].
  { rewrite !(bool_decide_eq_true_2 _ Hp). exists "project". repeat split. }
  rewrite !(bool_decide_eq_false_2 _ Hp).
  destruct (decide (Main.flag_region flags = "")) as [Hr|Hr].
  { rewrite !(bool_decide_eq_true_2 _ Hr). exists "region". repeat split. }
  rewrite !(bool_decide_eq_false_2 _ Hr).
  destruct (decide (Main.flag_temp_location flags = "")) as [Ht|Ht].
  { rewrite !(bool_decide_eq_true_2 _ Ht). exists "temp_location". repeat split. }
  by destruct Hmissing as [?|[?|?]].
Qed.

(** X18. Looking up the launcher's identity is best effort.  With the three
    required flags main runs the token-introspection lookup once and nothing
    else of the worker's code; it logs the email found, or, when the lookup
    fails, a warning with the error and the identity unknown; and a
    failed lookup changes neither the number of pipelines run nor the way
    main ends, which is by returning exactly when the runner reports no
    error. *)
Theorem launcher_identity_is_best_effort host flags :
  Main.flag_project flags <> "" ->
  Main.flag_region flags <> "" ->
  Main.flag_temp_location flags <> "" ->
  let t := fst (Main.main host flags) in
  let adc := getADCIdentityEmail (Main.host_world host) in
  Main.effects t = fst adc /\
  match snd adc with
  | Ok email =>
      ("Launcher Identity (determined via ADC): %s", [AStr email]) ∈ Main.log_lines t
  | Err err =>
      ("Warning: Could not determine launcher identity via ADC: %v", [AErr err])
        ∈ Main.log_lines t /\
      ("Launcher Identity (determined via ADC): %s", [AStr "unknown"]) ∈ Main.log_lines t
  end /\
  length (Main.pipelines_run t) = 1%nat /\
  (snd (Main.main host flags) = Main.Returned <->
   Forall (fun p => Main.beamx_Run host p = None) (Main.pipelines_run t)).
Proof.
  intros Hp Hr Ht t adc. subst t adc.
  unfold Main.main. rewrite !bool_decide_eq_false_2 by done.
  destruct (getADCIdentityEmail (Main.host_world host)) as [t_adc r].
  cbn [Main.run fst snd].
  set (p := {| Main.ReadPrompts_project := Main.flag_project flags;
               Main.ReadPrompts_query := Main.query;
               Main.FormatPrompts := _; Main.CallVertexAI := _;
               Main.WriteResults_project := _; Main.WriteResults_table := _ |}).
  clearbody p.
  destruct r as [identityEmail|err];
    destruct (Main.beamx_Run host p) as [rerr|] eqn:Hrun; cbn [fst snd].
  all: rewrite ?pipelines_run_app, ?effects_app, ?log_lines_app.
  all: rewrite ?(proj1 (launcher_effects _)), ?(proj1 (proj2 (launcher_effects _))),
         ?(proj2 (proj2 (proj2 (launcher_effects _)))).
  all: destruct (bool_decide (Main.flag_staging_location flags = "")).
  all: cbn [Main.effects Main.pipelines_run omap list_omap app length].
  all: rewrite ?app_nil_r.
  all: (split; [reflexivity|]).
  all: (split; [cbn; set_solver|]).
  all: (split; [reflexivity|]).
  all: rewrite Forall_singleton, Hrun; done.
Qed.
End Launch.

(** ** The further properties at sample inputs *)

Lemma run_never_panics_after_Setup_witness :
  let calls := [(scenario_world, prompt_A); (scenario_world, prompt_B);
                (scenario_world, prompt_C)] in
  errorCounts sample_worker = Some ∅ /\
  exists ts fn',
    @run sample_runtime sample_worker calls = (ts, Some fn') /\
    length ts = 3%nat /\
    workerIdentity fn' = workerIdentity sample_worker.
Proof.
  split; [reflexivity|].
  destruct (@run_never_panics_after_Setup sample_runtime sample_worker ∅
              [(scenario_world, prompt_A); (scenario_world, prompt_B);
               (scenario_world, prompt_C)] eq_refl)
    as (ts & fn' & mp' & Hrun & Hlen & _ & _ & _ & _ & _ & Hid & _).
  exists ts, fn'. split; [exact Hrun|]. split; [exact Hlen|exact Hid].
Defined.

Lemma every_record_emitted_or_counted_witness :
  let calls := [(scenario_world, prompt_A); (scenario_world, prompt_B);
                (scenario_world, prompt_C)] in
  errorCounts sample_worker = Some ∅ /\
  identityErr sample_worker = None /\
  exists ts fn',
    @run sample_runtime sample_worker calls = (ts, Some fn') /\
    (length (emitted (concat ts)) + length (counter_incs (concat ts)))%nat = 3%nat.
Proof.
  split; [reflexivity|]. split; [reflexivity|].
  destruct (@every_record_emitted_or_counted sample_runtime sample_worker ∅
              [(scenario_world, prompt_A); (scenario_world, prompt_B);
               (scenario_world, prompt_C)] eq_refl eq_refl)
    as (ts & fn' & Hrun & _ & Hsum).
  exists ts, fn'. split; [exact Hrun|exact Hsum].
Defined.

Lemma run_emits_the_successes_in_order_witness :
  let calls := [(scenario_world, prompt_A); (scenario_world, prompt_B);
                (scenario_world, prompt_C)] in
  errorCounts sample_worker = Some ∅ /\
  exists ts fn',
    @run sample_runtime sample_worker calls = (ts, Some fn') /\
    emitted (concat ts) = [{| GeminiResult_Prompt := "A"; GeneratedText := "a" |};
                           {| GeminiResult_Prompt := "C"; GeneratedText := "c" |}].
Proof.
  split; [reflexivity|].
  destruct (@run_emits_the_successes_in_order sample_runtime sample_worker ∅
              [(scenario_world, prompt_A); (scenario_world, prompt_B);
               (scenario_world, prompt_C)] eq_refl)
    as (ts & fn' & Hrun & Hout).
  exists ts, fn'. split; [exact Hrun|]. rewrite Hout. reflexivity.
Defined.

Lemma stored_counts_between_1_and_21_witness :
  let calls := replicate 30 (no_credentials_world, prompt_A) in
  errorCounts sample_worker = Some ∅ /\
  exists ts fn' mp',
    @run sample_runtime sample_worker calls = (ts, Some fn') /\
    errorCounts fn' = Some mp' /\
    map_Forall (fun _ v => 1 <= v <= 21) mp'.
Proof.
  split; [reflexivity|].
  destruct (@stored_counts_between_1_and_21 sample_runtime sample_worker ∅
              (replicate 30 (no_credentials_world, prompt_A)) eq_refl
              (map_Forall_empty _))
    as (ts & fn' & mp' & Hrun & Hmp & Hall).
  exists ts, fn', mp'. split; [exact Hrun|]. split; [exact Hmp|exact Hall].
Defined.

Lemma failure_lines_equal_stored_counts_witness :
  let calls := replicate 30 (no_credentials_world, prompt_A)
               ++ [(scenario_world, prompt_B)] in
  errorCounts sample_worker = Some ∅ /\
  exists ts fn' mp',
    @run sample_runtime sample_worker calls = (ts, Some fn') /\
    errorCounts fn' = Some mp' /\
    Z.of_nat (length (failure_lines (concat ts))) = total_count mp' /\
    Z.of_nat (length (failure_lines (concat ts))) <= 21 * Z.of_nat (size mp').
Proof.
  split; [reflexivity|].
  destruct (@failure_lines_equal_stored_counts sample_runtime sample_worker ∅
              (replicate 30 (no_credentials_world, prompt_A)
               ++ [(scenario_world, prompt_B)]) eq_refl)
    as (ts & fn' & mp' & Hrun & Hmp & _ & Hfresh).
  exists ts, fn', mp'. split; [exact Hrun|]. split; [exact Hmp|].
  exact (Hfresh eq_refl).
Defined.

Lemma no_request_without_client_witness :
  google_DefaultClient no_credentials_world cloud_platform_scope
    = Some (errors_New "could not find default credentials") /\
  exists err,
    @callVertexPredictAPI sample_runtime no_credentials_world sample_worker "A"
      = ([EvDefaultClient cloud_platform_scope], Err err) /\
    Error err = no_credentials_message.
Proof.
  split; [reflexivity|].
  destruct (@no_request_without_client sample_runtime no_credentials_world sample_worker
              "A" (errors_New "could not find default credentials") (or_introl eq_refl))
    as (err & Hcall & _ & _ & _).
  exists err. split; [exact Hcall|].
  injection Hcall as <-. reflexivity.
Defined.

Lemma prediction_errors_wrap_or_report_status_witness :
  exists t err,
    @callVertexPredictAPI sample_runtime scenario_world sample_worker "B" = (t, Err err) /\
    ((exists cause, Unwrap err = Some cause /\ Contains (Error err) (Error cause) = true) \/
     (exists resp,
        http_Do scenario_world (Client_Google cloud_platform_scope)
          (predict_request sample_worker "B") = Ok resp /\
        StatusCode resp <> 200 /\
        Unwrap err = None /\
        Contains (Error err) (pretty (StatusCode resp)) = true)).
Proof.
  do 2 eexists. split; [reflexivity|].
  exact (@prediction_errors_wrap_or_report_status sample_runtime scenario_world
           sample_worker "B" _ _ eq_refl).
Defined.

Lemma undecodable_body_is_an_error_witness :
  let W := gce_world (fun _ => respond 200 "<html>") in
  let resp := {| StatusCode := 200; BodyBytes := "<html>"; BodyErr := None |} in
  @endpoint_responds sample_runtime W sample_worker "A" resp /\
  json_Unmarshal_VertexResponse (GoRuntime := sample_runtime) "<html>"
    = Err (errors_New "unexpected end of JSON input") /\
  exists err,
    snd (@callVertexPredictAPI sample_runtime W sample_worker "A") = Err err /\
    Contains (Error err) "<html>" = true.
Proof.
  assert (@endpoint_responds sample_runtime
            (gce_world (fun _ => respond 200 "<html>")) sample_worker "A"
            {| StatusCode := 200; BodyBytes := "<html>"; BodyErr := None |})
    as Hresp by (repeat split).
  split; [exact Hresp|]. split; [reflexivity|].
  destruct (@undecodable_body_is_an_error sample_runtime _ sample_worker prompt_A _
              (errors_New "unexpected end of JSON input") Hresp eq_refl eq_refl)
    as (err & Herr & _ & Hbody & _).
  exists err. split; [exact Herr|exact Hbody].
Defined.

Lemma tokeninfo_failures_witness :
  let rt := adc_runtime "" "Invalid Value" in
  let token := {| AccessToken := "ya29token"; Valid := true |} in
  google_FindDefaultCredentials adc_world userinfo_email_scope
    = Ok {| TokenSource_Token := Ok token |} /\
  snd (@getADCIdentityEmail rt adc_world)
    = Err (errors_New "tokeninfo returned an error: Invalid Value").
Proof.
  split; [reflexivity|].
  exact (proj1 (@tokeninfo_failures (adc_runtime "" "Invalid Value") adc_world
                  {| TokenSource_Token := Ok {| AccessToken := "ya29token"; Valid := true |} |}
                  {| AccessToken := "ya29token"; Valid := true |}
                  {| StatusCode := 200; BodyBytes := "tokeninfo"; BodyErr := None |}
                  eq_refl eq_refl eq_refl eq_refl eq_refl)
           {| Email := ""; EmailVerified := "true"; Error_description := "Invalid Value" |}
           eq_refl eq_refl eq_refl).
Defined.

Lemma main_requires_three_flags_witness :
  let flags := {| Main.flag_project := "sandboxportal";
                  Main.flag_region := "";
                  Main.flag_temp_location := "";
                  Main.flag_staging_location := "";
                  Main.flag_model_name := None |} in
  Main.flag_region flags = "" /\
  @Main.main sample_runtime sample_host flags
    = ([Main.Fatal "Missing required flag --region" []], Main.Exited 1).
Proof.
  split; [reflexivity|].
  destruct (@main_requires_three_flags sample_runtime sample_host
              {| Main.flag_project := "sandboxportal";
                 Main.flag_region := "";
                 Main.flag_temp_location := "";
                 Main.flag_staging_location := "";
                 Main.flag_model_name := None |} (or_intror (or_introl eq_refl)))
    as (name & Hmain & Hname & _).
  rewrite Hmain, Hname. reflexivity.
Defined.

Lemma main_runs_one_pipeline_witness :
  Main.flag_project sample_flags = "sandboxportal" /\
  exists p,
    Main.pipelines_run (fst (@Main.main sample_runtime sample_host sample_flags)) = [p] /\
    Main.WriteResults_table p = "sandboxportal:sandboxdataset.gemini_dataflow_results" /\
    ModelName (Main.CallVertexAI p) = "gemini-pro".
Proof.
  split; [reflexivity|].
  destruct (@main_runs_one_pipeline sample_runtime sample_host sample_flags)
    as (p & Hrun & _ & _ & Htable & _ & Hfn & _); [discriminate..|].
  exists p. split; [exact Hrun|]. rewrite Htable, Hfn. split; reflexivity.
Defined.

Lemma launcher_identity_is_best_effort_witness :
  Main.flag_project sample_flags = "sandboxportal" /\
  ("Launcher Identity (determined via ADC): %s", [AStr "unknown"])
    ∈ Main.log_lines (fst (@Main.main sample_runtime sample_host sample_flags)) /\
  snd (@Main.main sample_runtime sample_host sample_flags) = Main.Returned.
Proof.
  split; [reflexivity|].
  destruct (@launcher_identity_is_best_effort sample_runtime sample_host sample_flags)
    as (_ & Hid & _ & Hret); [discriminate..|].
  split; [exact (proj2 Hid)|]. reflexivity.
Defined.


